(** * DMX-512 controller: the FTDI interface and the playback scheduler

    A shallow embedding of [ftdi_dmx_interface.py] and [dmx_controller.py],
    and of the parts of [qxw_converter.py] and [json_to_dmx.py] that work
    on lists, dicts and bytes.

    Python objects are mutable, and exceptions leave every mutation made
    before the [raise] in place.  Methods are therefore functions from the
    state of the process to a result (a return value or an exception)
    paired with the state afterwards.

    What lies outside the two files is modelled as follows.
    - The FTDI device (pylibftdi) accepts every call; the calls it receives
      are recorded, oldest first, in [trace].
    - [libc.nanosleep] and [time.sleep] are recorded in [trace] as well and
      advance [clock] by the requested duration.
    - The time the process spends running is in [lag]: before each reading
      of [time.time()] the clock goes on by the next entry of [lag], a
      fraction of a second that is not negative, and it stands still
      between sleeps when [lag] is used up.  The clock never goes back.
      A statement about every state is a statement about every such
      course of the clock.
    - Points in time are exact rationals: the rounding of Python floats is
      not modelled.
    - [sched.scheduler] keeps its events ordered by
      [(time, priority, sequence)] and [run] takes them from the front.
    - The [f] format of [struct] is a parameter of [JsonToDmx.convert]; the
      XML parsing and the float arithmetic of [qxw_converter.py] are not
      embedded.
    - Files, JSON documents and the built-in functions [float], [int] and
      [items] are parameters of [Untyped.load]. *)

From Stdlib Require Import QArith Lqa SetoidList SetoidPermutation.
From Stdlib.Strings Require Import Byte.
From stdpp Require Import base list numbers strings pretty sorting.

Open Scope Z_scope.

(** ** Python primitives *)

Module Py.

Inductive exn : Type :=
| ValueError (msg : string)
| IndexError (msg : string)
| RuntimeError (msg : string)
| AttributeError (msg : string)
| TypeError (msg : string)
| OSError (msg : string)
| OverflowError (msg : string).

Inductive result (A : Type) : Type :=
| Return (a : A)
| Raise (e : exn).
Arguments Return {A} a.
Arguments Raise {A} e.

Definition len {A} (l : list A) : Z := Z.of_nat (length l).

(** [str(z)] for an int. *)
Definition str (z : Z) : string := pretty z.

(** An index counts from the end when it is negative. *)
Definition index_of {A} (l : list A) (i : Z) : option nat :=
  let j := if i <? 0 then i + len l else i in
  if (j <? 0) || (len l <=? j) then None else Some (Z.to_nat j).

(** [l[i]] *)
Definition getitem {A} (l : list A) (i : Z) : result A :=
  match index_of l i with
  | Some n =>
      match l !! n with
      | Some x => Return x
      | None => Raise (IndexError "list index out of range")
      end
  | None => Raise (IndexError "list index out of range")
  end.

(** [l[i] = x] *)
Definition setitem {A} (l : list A) (i : Z) (x : A) : result (list A) :=
  match index_of l i with
  | Some n => Return (<[n:=x]> l)
  | None => Raise (IndexError "list assignment index out of range")
  end.

(** [l[:stop]] *)
Definition slice_to {A} (l : list A) (stop : Z) : list A :=
  let k := if stop <? 0 then Z.max 0 (stop + len l) else stop in
  take (Z.to_nat k) l.

(** [bytes(l)] for a list of ints. *)
Fixpoint bytes (l : list Z) : result (list byte) :=
  match l with
  | [] => Return []
  | z :: l' =>
      if (0 <=? z) && (z <? 256) then
        match Byte.of_N (Z.to_N z), bytes l' with
        | Some b, Return bs => Return (b :: bs)
        | _, Raise e => Raise e
        | None, _ => Raise (ValueError "bytes must be in range(0, 256)")
        end
      else Raise (ValueError "bytes must be in range(0, 256)")
  end.

(** A dict keeps its keys in insertion order; storing under a key that
    is present replaces the value and keeps the position. *)
Fixpoint dict_set {K V} (eqb : K -> K -> bool) (k : K) (v : V)
    (d : list (K * V)) : list (K * V) :=
  match d with
  | [] => [(k, v)]
  | (k', v') :: d' =>
      if eqb k' k then (k', v) :: d' else (k', v') :: dict_set eqb k v d'
  end.

(** [{k: v for k, v in items}] *)
Definition dict_of_items {K V} (eqb : K -> K -> bool)
    (items : list (K * V)) : list (K * V) :=
  fold_left (fun d kv => dict_set eqb kv.1 kv.2 d) items [].

End Py.
Export Py.

(** ** The process state *)

(** [ctypes.c_long] on a 64-bit libc: the value wraps around. *)
Definition c_long (z : Z) : Z := (z + 2 ^ 63) mod 2 ^ 64 - 2 ^ 63.

Record Timespec : Type := mkTimespec {
  seconds : Z;
  nanoseconds : Z
}.

(** What the process does to the outside world. *)
Inductive Effect : Type :=
| DeviceOpen
| FtdiSetBaudrate (baudrate : Z)
| FtdiSetLineProperty (bits sbit parity : Z)
| FtdiSetLineProperty2 (bits sbit parity break : Z)
| DeviceWrite (data : list byte)
| DeviceClose
| Nanosleep (req : Timespec)
| TimeSleep (secs : Q).

Definition Frame : Type := list (Z * Z).
Definition Program : Type := list (Q * Frame).

(** An entry of the scheduler's queue; the action is always
    [DmxController._scheduler_callback]. *)
Record Event : Type := mkEvent {
  time : Q;
  priority : Z;
  sequence : Z;
  argument : Frame
}.

Record State : Type := mkState {
  (* FtdiDmxInterface *)
  _dmx_channels : list Z;
  _highest_updated_channel : Z;
  (* DmxController: the program, and the queue and the counter of its
     scheduler *)
  _program : option Program;
  _queue : list Event;
  _sequence_generator : Z;
  (* the world: the clock of the process, and what the FTDI device and
     the sleep functions were asked to do *)
  clock : Q;
  trace : list Effect;
  (* the seconds, each a numerator and a denominator, that will have
     passed, on top of the sleeps, at each of the next readings of
     [time.time()]: the time the process spends running, or waiting to
     run *)
  lag : list (N * positive)
}.

Definition set_dmx_channels (v : list Z) (s : State) : State :=
  mkState v (_highest_updated_channel s) (_program s) (_queue s)
    (_sequence_generator s) (clock s) (trace s) (lag s).
Definition set_highest_updated_channel (v : Z) (s : State) : State :=
  mkState (_dmx_channels s) v (_program s) (_queue s)
    (_sequence_generator s) (clock s) (trace s) (lag s).
Definition set_program (v : option Program) (s : State) : State :=
  mkState (_dmx_channels s) (_highest_updated_channel s) v (_queue s)
    (_sequence_generator s) (clock s) (trace s) (lag s).
Definition set_queue (v : list Event) (s : State) : State :=
  mkState (_dmx_channels s) (_highest_updated_channel s) (_program s) v
    (_sequence_generator s) (clock s) (trace s) (lag s).
Definition set_sequence_generator (v : Z) (s : State) : State :=
  mkState (_dmx_channels s) (_highest_updated_channel s) (_program s)
    (_queue s) v (clock s) (trace s) (lag s).
Definition set_clock (v : Q) (s : State) : State :=
  mkState (_dmx_channels s) (_highest_updated_channel s) (_program s)
    (_queue s) (_sequence_generator s) v (trace s) (lag s).
Definition set_trace (v : list Effect) (s : State) : State :=
  mkState (_dmx_channels s) (_highest_updated_channel s) (_program s)
    (_queue s) (_sequence_generator s) (clock s) v (lag s).
Definition set_lag (v : list (N * positive)) (s : State) : State :=
  mkState (_dmx_channels s) (_highest_updated_channel s) (_program s)
    (_queue s) (_sequence_generator s) (clock s) (trace s) v.

(** ** Methods: state and exceptions *)

Definition M (A : Type) : Type := State -> result A * State.

#[global] Instance M_ret : MRet M := fun A a s => (Return a, s).
#[global] Instance M_bind : MBind M := fun A B f m s =>
  match m s with
  | (Return a, s') => f a s'
  | (Raise e, s') => (Raise e, s')
  end.

Definition raise {A} (e : exn) : M A := fun s => (Raise e, s).
Definition gets {A} (f : State -> A) : M A := fun s => (Return (f s), s).
Definition modify (f : State -> State) : M unit := fun s => (Return tt, f s).
Definition lift {A} (r : result A) : M A := fun s => (r, s).
Definition emit (e : Effect) : M unit :=
  modify (fun s => set_trace (trace s ++ [e]) s).

(** [for x in l: body(x)] *)
Fixpoint for_each {A} (body : A -> M unit) (l : list A) : M unit :=
  match l with
  | [] => mret tt
  | x :: l' => body x;; for_each body l'
  end.

(** [libc.nanosleep(req, rem)]: a request with a negative field or with
    a second or more of nanoseconds is refused without sleeping. *)
Definition timespec_valid (req : Timespec) : bool :=
  (0 <=? seconds req) && (0 <=? nanoseconds req)
  && (nanoseconds req <? 1000000000).
Definition timespec_secs (req : Timespec) : Q :=
  (inject_Z (seconds req) + (nanoseconds req # 1000000000))%Q.
Definition libc_nanosleep (req : Timespec) : M unit :=
  emit (Nanosleep req);;
  if timespec_valid req
  then modify (fun s => set_clock (clock s + timespec_secs req)%Q s)
  else mret tt.

(** Between two readings of the clock the process has been running: the
    clock has gone on by the next entry of [lag], and stands still when
    none is left. *)
Definition lag_secs (d : N * positive) : Q := Z.of_N d.1 # d.2.
Definition tick (s : State) : State :=
  match lag s with
  | [] => s
  | d :: rest => set_lag rest (set_clock (clock s + lag_secs d)%Q s)
  end.

(** [time.time()] and [time.sleep(secs)] *)
Definition time_time : M Q := modify tick;; gets clock.
Definition time_sleep (secs : Q) : M unit :=
  if Qlt_le_dec secs 0
  then raise (ValueError "sleep length must be non-negative")
  else
    emit (TimeSleep secs);;
    modify (fun s => set_clock (clock s + secs)%Q s).

(** ** ftdi_dmx_interface.py *)

Module FtdiDmxInterface.

Definition MS_PER_S : Z := 1000000.
Definition NS_PER_MS : Z := 1000.
Definition US_PER_MS : Z := 1000.

Definition BAUDRATE : Z := 250000.

Definition BITS_8 : Z := 8.
Definition STOP_BITS_2 : Z := 2.
Definition PARITY_NONE : Z := 0.
Definition BREAK_OFF : Z := 0.
Definition BREAK_ON : Z := 1.

Definition CHANNEL_RANGE : Z * Z := (1, 512).
Definition VALUE_RANGE : Z * Z := (0, 255).

Definition _wait_us (microseconds : Z) : M unit :=
  libc_nanosleep
    {| seconds := c_long (microseconds / MS_PER_S);
       nanoseconds := c_long ((microseconds mod MS_PER_S) * NS_PER_MS) |}.

Definition _wait_ms (milliseconds : Z) : M unit :=
  _wait_us (milliseconds * US_PER_MS).

Definition reset : M unit :=
  modify (set_dmx_channels (replicate (Z.to_nat (CHANNEL_RANGE.2 + 1)) 0));;
  modify (set_highest_updated_channel CHANNEL_RANGE.2).

Definition set_channel (channel value : Z) : M unit :=
  if negb ((CHANNEL_RANGE.1 <=? channel) && (channel <=? CHANNEL_RANGE.2))
  then raise (ValueError ("Channel " +:+ str channel +:+ " out of range."))
  else if negb ((VALUE_RANGE.1 <=? value) && (value <=? VALUE_RANGE.2))
  then raise (ValueError ("Value " +:+ str value +:+ " out of range."))
  else
    channels ← gets _dmx_channels;
    channels' ← lift (setitem channels channel value);
    modify (set_dmx_channels channels');;
    highest ← gets _highest_updated_channel;
    modify (set_highest_updated_channel (Z.max highest channel)).

Definition get_channel (channel : Z) : M Z :=
  if negb ((CHANNEL_RANGE.1 <=? channel) && (channel <=? CHANNEL_RANGE.2))
  then raise (ValueError ("Channel " +:+ str channel +:+ " out of range."))
  else
    channels ← gets _dmx_channels;
    lift (getitem channels channel).

Definition __setitem__ (key value : Z) : M unit := set_channel key value.
Definition __getitem__ (key : Z) : M Z := get_channel key.

Definition render : M unit :=
  channels ← gets _dmx_channels;
  highest ← gets _highest_updated_channel;
  data ← lift (bytes (slice_to channels (highest + 1)));
  emit (FtdiSetLineProperty2 BITS_8 STOP_BITS_2 PARITY_NONE BREAK_ON);;
  _wait_us 96;;
  emit (FtdiSetLineProperty2 BITS_8 STOP_BITS_2 PARITY_NONE BREAK_OFF);;
  _wait_us 8;;
  emit (DeviceWrite data);;
  _wait_ms 2;;
  modify (set_highest_updated_channel 0).

Definition blackout : M unit := reset;; render.

Definition __init__ : M unit :=
  emit DeviceOpen;;
  emit (FtdiSetBaudrate BAUDRATE);;
  emit (FtdiSetLineProperty BITS_8 STOP_BITS_2 PARITY_NONE);;
  blackout.

Definition __del__ : M unit := blackout;; emit DeviceClose.

(** Everything the class and its instances define. *)
Definition attributes : list string :=
  [ "LIBC"; "MS_PER_S"; "NS_PER_MS"; "US_PER_MS"; "BAUDRATE"; "BITS_8";
    "STOP_BITS_2"; "PARITY_NONE"; "BREAK_OFF"; "BREAK_ON"; "CHANNEL_RANGE";
    "VALUE_RANGE"; "_wait_us"; "_wait_ms"; "_ftdi_device"; "_dmx_channels";
    "_highest_updated_channel"; "__init__"; "__del__"; "reset";
    "set_channel"; "get_channel"; "__setitem__"; "__getitem__"; "blackout";
    "render" ]%string.

(** [self.name()]: attribute lookup on an instance, then a call without
    arguments. *)
Definition call (name : string) : M unit :=
  if String.eqb name "reset" then reset
  else if String.eqb name "blackout" then blackout
  else if String.eqb name "render" then render
  else if String.eqb name "__del__" then __del__
  else if bool_decide (name ∈ attributes)
  then raise (TypeError (name +:+ " cannot be called without arguments"))
  else raise (AttributeError
    ("'FtdiDmxInterface' object has no attribute '" +:+ name +:+ "'")).

End FtdiDmxInterface.

(** ** sched.scheduler, as [dmx_controller.py] uses it *)

Module sched.

(** Events compare as the tuples [(time, priority, sequence)]. *)
Definition event_ltb (a b : Event) : bool :=
  if Qlt_le_dec (time a) (time b) then true
  else if Qlt_le_dec (time b) (time a) then false
  else if priority a <? priority b then true
  else if priority b <? priority a then false
  else sequence a <? sequence b.

(** [heapq.heappush]: the queue is kept in the order in which
    [heapq.heappop] hands the events out. *)
Fixpoint heappush (q : list Event) (ev : Event) : list Event :=
  match q with
  | [] => [ev]
  | e :: q' => if event_ltb ev e then ev :: e :: q' else e :: heappush q' ev
  end.

(** [scheduler.enter(delay, priority, action, argument)] *)
Definition enter (delay : Q) (priority : Z) (argument : Frame) : M unit :=
  now ← time_time;
  seq ← gets _sequence_generator;
  modify (set_sequence_generator (seq + 1));;
  q ← gets _queue;
  modify (set_queue (heappush q (mkEvent (now + delay)%Q priority seq argument))).

(** The loop of [scheduler.run()], [turns] turns of it: leave when the
    queue is empty; read the clock; sleep if the first event is not due
    yet, and otherwise take it out, call its action and yield. *)
Fixpoint run_loop (turns : nat) (action : Frame -> M unit) : M unit :=
  match turns with
  | O => mret tt
  | S turns' =>
      q ← gets _queue;
      match q with
      | [] => mret tt
      | ev :: q' =>
          now ← time_time;
          if Qlt_le_dec now (time ev)
          then
            time_sleep (time ev - now)%Q;;
            run_loop turns' action
          else
            modify (set_queue q');;
            action (argument ev);;
            time_sleep 0;;
            run_loop turns' action
      end
  end.

(** [scheduler.run()].  A turn that sleeps is followed by a turn that
    takes the event out, and the action of this program adds no event:
    two turns for each event of the queue are all the loop can take
    ([run_loop_turns]). *)
Definition run (action : Frame -> M unit) : M unit :=
  q ← gets _queue;
  run_loop (2 * length q) action.

End sched.

(** ** dmx_controller.py *)

Module DmxController.

Definition __init__ : M unit :=
  FtdiDmxInterface.__init__;;
  modify (set_program None);;
  modify (set_queue []);;
  modify (set_sequence_generator 0).

Definition __del__ : M unit := FtdiDmxInterface.call "stop".

(** [load(program)] for a program of the type the method declares, a
    dict from floats to dicts from ints to ints, given by its items:
    [isinstance(program, str)] is false, and [float] and [int] return
    their arguments.  The two comprehensions build the dicts anew.
    [Untyped.load] below is [load] on any argument. *)
Definition load (program : list (Q * list (Z * Z))) : M unit :=
  modify (set_program (Some
    (dict_of_items Qeq_bool
       (map (fun tf => (tf.1, dict_of_items Z.eqb tf.2)) program)))).

Definition _scheduler_callback (data : Frame) : M unit :=
  for_each (fun cv => FtdiDmxInterface.__setitem__ cv.1 cv.2) data;;
  FtdiDmxInterface.render.

(** [for i, (delay, data) in enumerate(items): scheduler.enter(...)] *)
Fixpoint enter_all (i : Z) (items : Program) : M unit :=
  match items with
  | [] => mret tt
  | (delay, data) :: items' =>
      sched.enter delay i data;;
      enter_all (i + 1) items'
  end.

Definition run : M unit :=
  program ← gets _program;
  match program with
  | None => raise (RuntimeError "No program loaded.")
  | Some items =>
      enter_all 0 items;;
      sched.run _scheduler_callback;;
      FtdiDmxInterface.call "stop"
  end.

End DmxController.

(** ** [load] on any argument *)

(** Python does not check the type that [load] declares, and a file name
    is one of the arguments it expects.  The objects that [load] is
    given or reads, and the built-in functions it applies to them, are
    parameters; each function returns or raises. *)
Record builtins (object : Type) : Type := mkBuiltins {
  (* [isinstance(x, str)], and the string *)
  isinstance_str : object -> option string;
  (* [with open(name, 'r') as file: json.load(file)] *)
  open_json_load : string -> result object;
  (* [x.items()] *)
  dict_items : object -> result (list (object * object));
  (* [float(x)] *)
  float : object -> result Q;
  (* [int(x)] *)
  int : object -> result Z
}.
Arguments isinstance_str {object} _ _.
Arguments open_json_load {object} _ _.
Arguments dict_items {object} _ _.
Arguments float {object} _ _.
Arguments int {object} _ _.

Module Untyped.

(** [{key(x): value(x) for x in l}], continued from the dict [d]: for
    each [x] the key, then the value, then the store. *)
Fixpoint dict_comprehension {A K V} (eqb : K -> K -> bool)
    (key : A -> M K) (value : A -> M V) (l : list A) (d : list (K * V))
    : M (list (K * V)) :=
  match l with
  | [] => mret d
  | x :: l' =>
      k ← key x;
      v ← value x;
      dict_comprehension eqb key value l' (dict_set eqb k v d)
  end.

Definition load {object} (py : builtins object) (program : object) : M unit :=
  program ← match isinstance_str py program with
            | Some filename => lift (open_json_load py filename)
            | None => mret program
            end;
  entries ← lift (dict_items py program);
  loaded ← dict_comprehension Qeq_bool
    (fun tf => lift (float py tf.1))
    (fun tf =>
       pairs ← lift (dict_items py tf.2);
       dict_comprehension Z.eqb
         (fun cv => lift (int py cv.1)) (fun cv => lift (int py cv.2))
         pairs [])
    entries [];
  modify (set_program (Some loaded)).

End Untyped.

(** ** Vocabulary of the statements *)

(** A process in which nothing has been constructed yet. *)
Definition boot : State := mkState [] 0 None [] 0 0%Q [] [].

(** The universe as the constructor leaves it and every method keeps it:
    513 slots, each a byte, the start code in slot 0, the watermark within
    the buffer. *)
Definition universe_ok (s : State) : bool :=
  (length (_dmx_channels s) =? 513)%nat
  && forallb (fun v => (0 <=? v) && (v <=? 255)) (_dmx_channels s)
  && bool_decide (_dmx_channels s !! 0%nat = Some 0)
  && (0 <=? _highest_updated_channel s)
  && (_highest_updated_channel s <=? 512).

Definition byte_to_Z (b : byte) : Z := Z.of_N (Byte.to_N b).

(** The packets written to the device, oldest first. *)
Definition writes (t : list Effect) : list (list byte) :=
  omap (fun e => match e with DeviceWrite data => Some data | _ => None end) t.

(** What a method adds to the trace when it is called in [s]. *)
Definition effects_of {A} (m : M A) (s : State) : list Effect :=
  drop (length (trace s)) (trace (m s).2).

(** The wire protocol of one packet. *)
Definition packet_effects (data : list byte) : list Effect :=
  [ FtdiSetLineProperty2 8 2 0 1;
    Nanosleep (mkTimespec 0 96000);
    FtdiSetLineProperty2 8 2 0 0;
    Nanosleep (mkTimespec 0 8000);
    DeviceWrite data;
    Nanosleep (mkTimespec 0 2000000) ].

(** The public methods of the interface, for sequences of calls. *)
Inductive Call : Type :=
| CallSetChannel (channel value : Z)
| CallGetChannel (channel : Z)
| CallRender
| CallBlackout
| CallReset.

Definition perform (c : Call) : M unit :=
  match c with
  | CallSetChannel channel value => FtdiDmxInterface.set_channel channel value
  | CallGetChannel channel => FtdiDmxInterface.get_channel channel;; mret tt
  | CallRender => FtdiDmxInterface.render
  | CallBlackout => FtdiDmxInterface.blackout
  | CallReset => FtdiDmxInterface.reset
  end.

(** The caller goes on after an exception. *)
Fixpoint perform_all (cs : list Call) (s : State) : State :=
  match cs with
  | [] => s
  | c :: cs' => perform_all cs' (perform c s).2
  end.

Definition frame_in_range (data : Frame) : bool :=
  forallb (fun cv => (1 <=? cv.1) && (cv.1 <=? 512)
                     && (0 <=? cv.2) && (cv.2 <=? 255)) data.

Definition program_in_range (p : Program) : bool :=
  forallb (fun tf => frame_in_range tf.2) p.

(** The buffer after the writes of a frame, and the watermark they leave. *)
Definition apply_frame (data : Frame) (channels : list Z) : list Z :=
  fold_left (fun l cv => <[Z.to_nat cv.1 := cv.2]> l) data channels.

Definition frame_highest (data : Frame) (highest : Z) : Z :=
  fold_left (fun h cv => Z.max h cv.1) data highest.

(** The packets of a show: frame after frame, the writes of the frame and
    then one packet, the buffer up to the watermark. *)
Fixpoint packets (channels : list Z) (highest : Z) (frames : list Frame)
    : list (list Z) :=
  match frames with
  | [] => []
  | data :: frames' =>
      let channels' := apply_frame data channels in
      take (Z.to_nat (frame_highest data highest + 1)) channels'
        :: packets channels' 0 frames'
  end.

(** The events [run] hands to the scheduler: one per entry, due at the
    entry's time after the clock reading of its own [enter], with the
    entry's index as priority.  [now] is the clock before the first
    reading and [lags] what passes before each reading. *)
Fixpoint scheduled (now : Q) (lags : list (N * positive)) (seq i : Z)
    (items : Program) : list Event :=
  match items with
  | [] => []
  | (delay, data) :: items' =>
      let now' := match lags with
                  | [] => now
                  | d :: _ => (now + lag_secs d)%Q
                  end in
      mkEvent (now' + delay)%Q i seq data
        :: scheduled now' (tail lags) (seq + 1) (i + 1) items'
  end.

(** The state in which the scheduler takes out an event due at [t]: after
    one reading of the clock if the event is due by then, and otherwise
    after the sleep for what is missing and the reading of the next
    turn. *)
Definition arrive (t : Q) (s : State) : State :=
  let s0 := tick s in
  if Qlt_le_dec (clock s0) t
  then tick (set_clock (clock s0 + (t - clock s0))%Q
               (set_trace (trace s0 ++ [TimeSleep (t - clock s0)%Q]) s0))
  else s0.


(** [[f(x) for x in l]] when every [f(x)] returns, and otherwise the
    exception of the first that raises. *)
Fixpoint traverse {A B} (f : A -> result B) (l : list A) : result (list B) :=
  match l with
  | [] => Return []
  | x :: l' =>
      match f x with
      | Raise e => Raise e
      | Return y =>
          match traverse f l' with
          | Raise e => Raise e
          | Return ys => Return (y :: ys)
          end
      end
  end.

(** [(k(x), v(x))], [k] first. *)
Definition both {A K V} (k : A -> result K) (v : A -> result V) (x : A)
    : result (K * V) :=
  match k x with
  | Raise e => Raise e
  | Return a =>
      match v x with
      | Raise e => Raise e
      | Return b => Return (a, b)
      end
  end.

(** The argument of [load] as a program of the declared type: the
    document of the file if the argument is a file name, its entries,
    and [float] and [int] of their keys and values, in the order in
    which [load] calls them. *)
Definition typed_frame {object} (py : builtins object) (frame : object)
    : result (list (Z * Z)) :=
  match dict_items py frame with
  | Raise e => Raise e
  | Return pairs =>
      traverse (both (fun cv => int py cv.1) (fun cv => int py cv.2)) pairs
  end.

Definition typed_program {object} (py : builtins object) (program : object)
    : result (list (Q * list (Z * Z))) :=
  match match isinstance_str py program with
        | Some filename => open_json_load py filename
        | None => Return program
        end with
  | Raise e => Raise e
  | Return document =>
      match dict_items py document with
      | Raise e => Raise e
      | Return entries =>
          traverse (both (fun tf => float py tf.1)
                         (fun tf => typed_frame py tf.2)) entries
      end
  end.

(** ** qxw_converter.py: pairing and delta compression *)

(** [d.get(k)] *)
Fixpoint dict_get {K V} (eqb : K -> K -> bool) (k : K) (d : list (K * V))
    : option V :=
  match d with
  | [] => None
  | (k', v) :: d' => if eqb k' k then Some v else dict_get eqb k d'
  end.

(** [range(0, n, 2)] *)
Definition range_by_2 (n : Z) : list Z :=
  map (fun k => 2 * Z.of_nat k) (seq 0 (Z.to_nat ((n + 1) / 2))).

Module QxwConverter.

(** [[(container[i], container[i + 1]) for i in indices]] *)
Fixpoint pairs_at {A} (container : list A) (indices : list Z)
    : result (list (A * A)) :=
  match indices with
  | [] => Return []
  | i :: indices' =>
      match getitem container i with
      | Raise e => Raise e
      | Return a =>
          match getitem container (i + 1) with
          | Raise e => Raise e
          | Return b =>
              match pairs_at container indices' with
              | Raise e => Raise e
              | Return ps => Return ((a, b) :: ps)
              end
          end
      end
  end.

Definition make_pairs {A} (container : list A) : result (list (A * A)) :=
  pairs_at container (range_by_2 (len container)).

(** The body of the loop of [_compress] over the items of one frame:
    a channel is kept when [last_frame.get(channel) != value]. *)
Definition compress_frame (last_frame frame : Frame) : Frame :=
  fold_left
    (fun compressed_frame cv =>
       if match dict_get Z.eqb cv.1 last_frame with
          | Some v => negb (v =? cv.2)
          | None => true
          end
       then dict_set Z.eqb cv.1 cv.2 compressed_frame
       else compressed_frame)
    frame [].

(** [_compress], from [_serialized_data] to [_compressed_serialized_data];
    the accumulator is the compressed dict and [last_frame]. *)
Definition _compress (_serialized_data : Program) : Program :=
  (fold_left
     (fun acc tf =>
        let compressed_frame := compress_frame acc.2 tf.2 in
        (if 0 <? len compressed_frame
         then dict_set Qeq_bool tf.1 compressed_frame acc.1
         else acc.1,
         tf.2))
     _serialized_data ([], [])).1.

End QxwConverter.


(** ** json_to_dmx.py: the binary file *)

(** What a call of [struct.pack_into] comes to: the bytes, or
    [struct.error], or the [OverflowError] of the [f] format. *)
Inductive outcome (A : Type) : Type :=
| Done (a : A)
| StructError
| FloatOverflow.
Arguments Done {A} a.
Arguments StructError {A}.
Arguments FloatOverflow {A}.

Definition and_then {A B} (o : outcome A) (k : A -> outcome B) : outcome B :=
  match o with
  | Done a => k a
  | StructError => StructError
  | FloatOverflow => FloatOverflow
  end.

(** The [n] low bytes of [z], the lowest first. *)
Fixpoint le_bytes (n : nat) (z : Z) : list byte :=
  match n with
  | O => []
  | S n' =>
      match Byte.of_N (Z.to_N (z mod 256)) with
      | Some b => b
      | None => x00
      end :: le_bytes n' (z / 256)
  end.

(** The formats [<I], [<H] and [B] of an unsigned integer. *)
Definition pack_uint (n : nat) (z : Z) : outcome (list byte) :=
  if (0 <=? z) && (z <? 256 ^ Z.of_nat n) then Done (le_bytes n z)
  else StructError.

(** [struct.pack_into(fmt, buffer, offset, ...)] for a format of [size]
    bytes: the room in the buffer is checked first, then the values are
    packed. *)
Definition pack_into (size : Z) (packed : outcome (list byte))
    (buffer : list byte) (offset : Z) : outcome (list byte) :=
  let off := if offset <? 0 then offset + len buffer else offset in
  if (off <? 0) || (len buffer <? off + size) then StructError
  else
    and_then packed (fun bs =>
      Done (take (Z.to_nat off) buffer ++ bs
            ++ drop (Z.to_nat (off + size)) buffer)).

Module JsonToDmx.

(** [b"DMX "] *)
Definition magic : list byte := [x44; x4d; x58; x20].

(** The inner loop of [convert]: a channel as [<H], its value as [B]. *)
Fixpoint pack_pairs (frame : Frame) (buffer : list byte) (offset : Z)
    : outcome (list byte * Z) :=
  match frame with
  | [] => Done (buffer, offset)
  | (channel, value) :: frame' =>
      and_then
        (pack_into 3
           (and_then (pack_uint 2 channel) (fun h =>
            and_then (pack_uint 1 value) (fun b => Done (h ++ b))))
           buffer offset)
        (fun buffer' => pack_pairs frame' buffer' (offset + 3))
  end.

(** The outer loop: the time as [<f], the number of pairs as [<H], then
    the pairs.  [pack_f] is the [f] format of [struct]. *)
Fixpoint pack_frames (pack_f : Q -> outcome (list byte)) (data : Program)
    (buffer : list byte) (offset : Z) : outcome (list byte * Z) :=
  match data with
  | [] => Done (buffer, offset)
  | (t, frame) :: data' =>
      and_then
        (pack_into 6
           (and_then (pack_f t) (fun f =>
            and_then (pack_uint 2 (len frame)) (fun h => Done (f ++ h))))
           buffer offset)
        (fun buffer' =>
           and_then (pack_pairs frame buffer' (offset + 6))
             (fun bo => pack_frames pack_f data' bo.1 bo.2))
  end.

(** [convert()]: the bytes that are written to the output file. *)
Definition convert (pack_f : Q -> outcome (list byte)) (_data : Program)
    : outcome (list byte) :=
  let size := fold_left (fun size tf => size + 6 + 3 * len tf.2) _data 8 in
  let buffer := replicate (Z.to_nat size) x00 in
  and_then (pack_into 4 (Done magic) buffer 0) (fun buffer =>
  and_then (pack_into 4 (pack_uint 4 (len _data)) buffer 4) (fun buffer =>
  and_then (pack_frames pack_f _data buffer 8) (fun bo => Done bo.1))).

End JsonToDmx.

(** The file as the format lays it out: the records one after the
    other. *)
Definition encode_pairs (frame : Frame) : list byte :=
  concat (map (fun cv => le_bytes 2 cv.1 ++ le_bytes 1 cv.2) frame).

Definition encode_frames (time_bytes : Q -> list byte) (data : Program)
    : list byte :=
  concat (map (fun tf => time_bytes tf.1 ++ le_bytes 2 (len tf.2)
                         ++ encode_pairs tf.2) data).

(** The pairs that the formats [<H] and [B] can hold. *)
Definition pairs_fit (frame : Frame) : Prop :=
  Forall (fun cv => 0 <= cv.1 < 65536 /\ 0 <= cv.2 < 256) frame.

(** ** The script at the end of ftdi_dmx_interface.py *)

Module FtdiDmxInterfaceMain.

(** The loop [for i in count()] never ends; these are its first [turns]
    turns, from [i] on. *)
Fixpoint loop (turns : nat) (i : Z) : M unit :=
  match turns with
  | O => mret tt
  | S turns' =>
      FtdiDmxInterface.__setitem__ 2 (i mod 256);;
      FtdiDmxInterface.__setitem__ 10 (255 - i mod 256);;
      FtdiDmxInterface.render;;
      time_sleep (1 # 100)%Q;;
      loop turns' (i + 1)
  end.

Definition main (turns : nat) : M unit :=
  FtdiDmxInterface.__init__;;
  FtdiDmxInterface.__setitem__ 1 255;;
  FtdiDmxInterface.__setitem__ 9 255;;
  FtdiDmxInterface.render;;
  loop turns 0.

End FtdiDmxInterfaceMain.

(** The packet of turn [i] of the script. *)
Definition main_packet (i : Z) : list Z :=
  [0; 255; i mod 256; 0; 0; 0; 0; 0; 0; 255; 255 - i mod 256].

(** ** The universe: [set_channel] and [get_channel] *)

Section Universe.

Import FtdiDmxInterface.

Lemma universe_ok_spec s :
  universe_ok s = true <->
  length (_dmx_channels s) = 513%nat
  /\ Forall (fun v => 0 <= v <= 255) (_dmx_channels s)
  /\ _dmx_channels s !! 0%nat = Some 0
  /\ 0 <= _highest_updated_channel s <= 512.
Proof.
  unfold universe_ok.
  rewrite !andb_true_iff, Nat.eqb_eq, forallb_forall, bool_decide_eq_true,
    !Z.leb_le, Forall_forall.
  split.
  - intros [[[[Hlen Hall] H0] Hlo] Hhi]. repeat split; try done.
    + apply list_elem_of_In, Hall in H. apply andb_true_iff in H. lia.
    + apply list_elem_of_In, Hall in H. apply andb_true_iff in H. lia.
  - intros (Hlen & Hall & H0 & Hlo & Hhi). repeat split; try done.
    intros v Hv. apply list_elem_of_In, Hall in Hv.
    apply andb_true_iff. lia.
Qed.

Lemma channel_check channel :
  negb ((CHANNEL_RANGE.1 <=? channel) && (channel <=? CHANNEL_RANGE.2))
  = false <-> 1 <= channel <= 512.
Proof.
  rewrite negb_false_iff, andb_true_iff, !Z.leb_le. reflexivity.
Qed.

Lemma value_check value :
  negb ((VALUE_RANGE.1 <=? value) && (value <=? VALUE_RANGE.2))
  = false <-> 0 <= value <= 255.
Proof.
  rewrite negb_false_iff, andb_true_iff, !Z.leb_le. reflexivity.
Qed.

Lemma index_of_channel {A} (l : list A) channel :
  1 <= channel <= 512 -> length l = 513%nat ->
  index_of l channel = Some (Z.to_nat channel).
Proof.
  intros Hc Hlen. unfold index_of, len. rewrite Hlen. cbv zeta.
  assert ((channel <? 0) = false) as E1 by (apply Z.ltb_ge; lia).
  assert ((Z.of_nat 513 <=? channel) = false) as E2 by (apply Z.leb_gt; lia).
  rewrite !E1, E2. reflexivity.
Qed.

(** Out of range, the channel is refused first and nothing is touched. *)
Lemma set_channel_bad_channel s channel value :
  ~ (1 <= channel <= 512) ->
  set_channel channel value s
  = (Raise (ValueError ("Channel " +:+ str channel +:+ " out of range.")), s).
Proof.
  intros Hc. unfold set_channel.
  destruct (negb _) eqn:E; [reflexivity|].
  apply channel_check in E. contradiction.
Qed.

Lemma set_channel_bad_value s channel value :
  1 <= channel <= 512 -> ~ (0 <= value <= 255) ->
  set_channel channel value s
  = (Raise (ValueError ("Value " +:+ str value +:+ " out of range.")), s).
Proof.
  intros Hc Hv. unfold set_channel.
  apply channel_check in Hc. rewrite Hc. clear Hc.
  destruct (negb ((VALUE_RANGE.1 <=? value) && _)) eqn:E; [reflexivity|].
  apply value_check in E. contradiction.
Qed.

Lemma get_channel_bad_channel s channel :
  ~ (1 <= channel <= 512) ->
  get_channel channel s
  = (Raise (ValueError ("Channel " +:+ str channel +:+ " out of range.")), s).
Proof.
  intros Hc. unfold get_channel.
  destruct (negb _) eqn:E; [reflexivity|].
  apply channel_check in E. contradiction.
Qed.

(** In range, the slot is overwritten and the watermark is raised. *)
Lemma set_channel_in_range s channel value :
  length (_dmx_channels s) = 513%nat ->
  1 <= channel <= 512 -> 0 <= value <= 255 ->
  set_channel channel value s
  = (Return tt,
     set_highest_updated_channel
       (Z.max (_highest_updated_channel s) channel)
       (set_dmx_channels (<[Z.to_nat channel := value]> (_dmx_channels s)) s)).
Proof.
  intros Hlen Hc Hv. unfold set_channel.
  pose proof Hc as Hc'. apply channel_check in Hc'. rewrite Hc'.
  apply value_check in Hv. rewrite Hv.
  unfold mbind, M_bind, gets, lift, modify, setitem. simpl.
  rewrite (index_of_channel _ _ Hc Hlen). reflexivity.
Qed.

Lemma get_channel_in_range s channel :
  length (_dmx_channels s) = 513%nat ->
  1 <= channel <= 512 ->
  exists v, _dmx_channels s !! Z.to_nat channel = Some v
            /\ get_channel channel s = (Return v, s).
Proof.
  intros Hlen Hc. unfold get_channel.
  pose proof Hc as Hc'. apply channel_check in Hc'. rewrite Hc'.
  unfold mbind, M_bind, gets, lift, getitem. simpl.
  rewrite (index_of_channel _ _ Hc Hlen).
  destruct (lookup_lt_is_Some_2 (_dmx_channels s) (Z.to_nat channel))
    as [v Hv]; [lia|].
  exists v. rewrite Hv. done.
Qed.

End Universe.

(** ** Rendering *)

Section Rendering.

Import FtdiDmxInterface.

Lemma byte_of_Z v :
  0 <= v <= 255 ->
  exists b, Byte.of_N (Z.to_N v) = Some b /\ byte_to_Z b = v.
Proof.
  intros Hv. destruct (Byte.of_N (Z.to_N v)) as [b|] eqn:E.
  - exists b. split; [done|]. unfold byte_to_Z.
    apply Byte.to_of_N in E. rewrite E. lia.
  - apply Byte.of_N_None_iff in E. lia.
Qed.

Lemma bytes_in_range l :
  Forall (fun v => 0 <= v <= 255) l ->
  exists data, bytes l = Return data /\ map byte_to_Z data = l.
Proof.
  induction 1 as [|v l Hv _ (data & Hdata & Hmap)]; simpl.
  - by exists [].
  - destruct (byte_of_Z v Hv) as (b & Hb & Hbv).
    assert ((0 <=? v) && (v <? 256) = true) as -> by lia.
    rewrite Hb, Hdata. exists (b :: data). simpl. by rewrite Hbv, Hmap.
Qed.

Lemma wait_us_96 s :
  _wait_us 96 s
  = (Return tt,
     set_clock (clock s + timespec_secs (mkTimespec 0 96000))%Q
       (set_trace (trace s ++ [Nanosleep (mkTimespec 0 96000)]) s)).
Proof. reflexivity. Qed.

Lemma wait_us_8 s :
  _wait_us 8 s
  = (Return tt,
     set_clock (clock s + timespec_secs (mkTimespec 0 8000))%Q
       (set_trace (trace s ++ [Nanosleep (mkTimespec 0 8000)]) s)).
Proof. reflexivity. Qed.

Lemma wait_ms_2 s :
  _wait_ms 2 s
  = (Return tt,
     set_clock (clock s + timespec_secs (mkTimespec 0 2000000))%Q
       (set_trace (trace s ++ [Nanosleep (mkTimespec 0 2000000)]) s)).
Proof. reflexivity. Qed.

(** The state after a packet has gone out. *)
Lemma render_with_data s data :
  bytes (slice_to (_dmx_channels s) (_highest_updated_channel s + 1))
  = Return data ->
  exists s',
    render s = (Return tt, s')
    /\ _dmx_channels s' = _dmx_channels s
    /\ _highest_updated_channel s' = 0
    /\ _program s' = _program s
    /\ _queue s' = _queue s
    /\ _sequence_generator s' = _sequence_generator s
    /\ trace s' = trace s ++ packet_effects data
    /\ clock s' = (clock s + timespec_secs (mkTimespec 0 96000)
                  + timespec_secs (mkTimespec 0 8000)
                  + timespec_secs (mkTimespec 0 2000000))%Q.
Proof.
  intros Hdata. unfold render.
  unfold mbind at 1 2 3, M_bind at 1 2 3, gets, lift. rewrite Hdata.
  unfold mbind, M_bind, emit, modify.
  rewrite wait_us_96, wait_us_8, wait_ms_2. simpl.
  eexists. split; [reflexivity|]. simpl.
  repeat split. rewrite <- !app_assoc. reflexivity.
Qed.

Lemma slice_watermark s :
  universe_ok s = true ->
  slice_to (_dmx_channels s) (_highest_updated_channel s + 1)
  = take (Z.to_nat (_highest_updated_channel s + 1)) (_dmx_channels s)
  /\ length (take (Z.to_nat (_highest_updated_channel s + 1))
               (_dmx_channels s))
     = Z.to_nat (_highest_updated_channel s + 1).
Proof.
  intros (Hlen & _ & _ & Hh)%universe_ok_spec. unfold slice_to.
  assert ((_highest_updated_channel s + 1 <? 0) = false) as ->
    by (apply Z.ltb_ge; lia).
  split; [reflexivity|]. rewrite length_take. lia.
Qed.

Lemma render_ok s :
  universe_ok s = true ->
  exists data s',
    render s = (Return tt, s')
    /\ map byte_to_Z data
       = take (Z.to_nat (_highest_updated_channel s + 1)) (_dmx_channels s)
    /\ _dmx_channels s' = _dmx_channels s
    /\ _highest_updated_channel s' = 0
    /\ _program s' = _program s
    /\ _queue s' = _queue s
    /\ _sequence_generator s' = _sequence_generator s
    /\ trace s' = trace s ++ packet_effects data
    /\ clock s' = (clock s + timespec_secs (mkTimespec 0 96000)
                  + timespec_secs (mkTimespec 0 8000)
                  + timespec_secs (mkTimespec 0 2000000))%Q.
Proof.
  intros Hok. destruct (slice_watermark s Hok) as [Hslice _].
  apply universe_ok_spec in Hok as (_ & Hall & _ & _).
  destruct (bytes_in_range
              (take (Z.to_nat (_highest_updated_channel s + 1))
                 (_dmx_channels s))) as (data & Hdata & Hmap).
  { by apply Forall_take. }
  rewrite <- Hslice in Hdata.
  destruct (render_with_data s data Hdata) as (s' & Hr & H).
  exists data, s'. by repeat split; try apply H.
Qed.

End Rendering.

(** ** The universe is kept in shape *)

Section Invariant.

Import FtdiDmxInterface.

Lemma writes_app t1 t2 : writes (t1 ++ t2) = writes t1 ++ writes t2.
Proof. unfold writes. apply omap_app. Qed.

Lemma writes_packet data : writes (packet_effects data) = [data].
Proof. reflexivity. Qed.

Lemma byte_to_Z_zero b : byte_to_Z b = 0 -> b = x00.
Proof.
  unfold byte_to_Z. intros Hb.
  assert (Byte.to_N b = 0%N) as Hn by lia.
  pose proof (Byte.of_to_N b) as Hof. rewrite Hn in Hof.
  simpl in Hof. congruence.
Qed.

(** A packet cut from a buffer with the start code in front. *)
Lemma packet_head data (l : list Z) n :
  map byte_to_Z data = take (S n) l -> l !! 0%nat = Some 0 ->
  head data = Some x00.
Proof.
  destruct l as [|z l]; [done|]. intros Hmap [= ->].
  destruct data as [|b data]; [done|]. simpl in Hmap.
  injection Hmap as Hb _. by rewrite (byte_to_Z_zero b Hb).
Qed.

Lemma reset_state s :
  reset s
  = (Return tt,
     set_highest_updated_channel 512 (set_dmx_channels (replicate 513 0) s)).
Proof. reflexivity. Qed.

Lemma reset_ok s : universe_ok (reset s).2 = true.
Proof. reflexivity. Qed.

Lemma set_channel_ok s channel value :
  universe_ok s = true ->
  universe_ok (set_channel channel value s).2 = true
  /\ trace (set_channel channel value s).2 = trace s.
Proof.
  intros Hok.
  destruct (decide (1 <= channel <= 512)) as [Hc|Hc];
    [|by rewrite set_channel_bad_channel].
  destruct (decide (0 <= value <= 255)) as [Hv|Hv];
    [|by rewrite set_channel_bad_value].
  apply universe_ok_spec in Hok as (Hlen & Hall & H0 & Hh).
  rewrite set_channel_in_range by done. split; [|reflexivity].
  apply universe_ok_spec. simpl. repeat split.
  - by rewrite length_insert.
  - by apply Forall_insert.
  - rewrite list_lookup_insert_ne by lia. done.
  - lia.
  - lia.
Qed.

Lemma get_channel_state s channel : (get_channel channel s).2 = s.
Proof.
  unfold get_channel. destruct (negb _); [reflexivity|].
  unfold mbind, M_bind, gets, lift. simpl.
  by destruct (getitem (_dmx_channels s) channel).
Qed.

Lemma render_keeps_ok s :
  universe_ok s = true ->
  exists data,
    universe_ok (render s).2 = true
    /\ (render s).1 = Return tt
    /\ trace (render s).2 = trace s ++ packet_effects data
    /\ head data = Some x00
    /\ map byte_to_Z data
       = take (Z.to_nat (_highest_updated_channel s + 1)) (_dmx_channels s).
Proof.
  intros Hok.
  destruct (render_ok s Hok)
    as (data & s' & Hr & Hmap & Hch & Hh & _ & _ & _ & Htr & _).
  exists data. rewrite Hr. simpl.
  apply universe_ok_spec in Hok as (Hlen & Hall & H0 & Hhs).
  repeat split; try done.
  - apply universe_ok_spec. rewrite Hch, Hh. repeat split; try done.
  - replace (Z.to_nat (_highest_updated_channel s + 1))
      with (S (Z.to_nat (_highest_updated_channel s))) in Hmap by lia.
    by eapply packet_head.
Qed.

(** One call: the universe stays in shape, and what goes out begins
    with the start code. *)
Lemma perform_ok c s :
  universe_ok s = true ->
  exists added,
    universe_ok (perform c s).2 = true
    /\ trace (perform c s).2 = trace s ++ added
    /\ Forall (fun data => head data = Some x00) (writes added).
Proof.
  intros Hok. destruct c as [channel value|channel| | |]; unfold perform.
  - exists []. destruct (set_channel_ok s channel value Hok) as [H1 H2].
    rewrite H1, H2, app_nil_r. by repeat split.
  - exists []. unfold mbind, M_bind.
    pose proof (get_channel_state s channel) as Hs.
    destruct (get_channel channel s) as [[v|e] s']; simpl in *; subst s';
      rewrite app_nil_r; by repeat split.
  - destruct (render_keeps_ok s Hok) as (data & H1 & _ & H2 & H3 & _).
    exists (packet_effects data). rewrite writes_packet.
    repeat split; try done. by constructor.
  - unfold blackout, mbind, M_bind. rewrite reset_state.
    set (s1 := set_highest_updated_channel _ _).
    destruct (render_keeps_ok s1 (reset_ok s))
      as (data & H1 & Hr & H2 & H3 & _).
    exists (packet_effects data). rewrite writes_packet.
    destruct (render s1) as [[[]|e] s2]; simpl in *; try done.
    repeat split; try done. by constructor.
  - exists []. rewrite app_nil_r. by repeat split.
Qed.

Lemma perform_all_ok cs s :
  universe_ok s = true ->
  exists added,
    universe_ok (perform_all cs s) = true
    /\ trace (perform_all cs s) = trace s ++ added
    /\ Forall (fun data => head data = Some x00) (writes added).
Proof.
  revert s. induction cs as [|c cs IH]; intros s Hok; simpl.
  - exists []. rewrite app_nil_r. by repeat split.
  - destruct (perform_ok c s Hok) as (a1 & Hok1 & Htr1 & Hw1).
    destruct (IH _ Hok1) as (a2 & Hok2 & Htr2 & Hw2).
    exists (a1 ++ a2). rewrite Htr2, Htr1, app_assoc, writes_app.
    repeat split; try done. by apply Forall_app.
Qed.

(** The constructor: the device is opened and configured, and the
    whole universe goes out, dark. *)
Lemma init_state s0 :
  exists s,
    __init__ s0 = (Return tt, s)
    /\ universe_ok s = true
    /\ _dmx_channels s = replicate 513 0
    /\ _highest_updated_channel s = 0
    /\ trace s = trace s0
                 ++ [DeviceOpen; FtdiSetBaudrate 250000;
                     FtdiSetLineProperty 8 2 0]
                 ++ packet_effects (replicate 513 x00).
Proof.
  eexists. split; [reflexivity|]. simpl.
  repeat split. rewrite <- !app_assoc. reflexivity.
Qed.

(** Every universe that the constructor and the public methods can
    produce is well formed. *)
Lemma constructed_universe_ok s0 cs :
  universe_ok (perform_all cs (__init__ s0).2) = true.
Proof.
  destruct (init_state s0) as (s1 & Hinit & Hok1 & _).
  rewrite Hinit. simpl.
  by destruct (perform_all_ok cs s1 Hok1) as (added & Hok & _).
Qed.

Lemma blackout_state s :
  exists s',
    blackout s = (Return tt, s')
    /\ universe_ok s' = true
    /\ _dmx_channels s' = replicate 513 0
    /\ _highest_updated_channel s' = 0
    /\ trace s' = trace s ++ packet_effects (replicate 513 x00).
Proof.
  eexists. split; [reflexivity|]. simpl.
  repeat split. rewrite <- !app_assoc. reflexivity.
Qed.

End Invariant.

(** ** Statements about the interface *)

Section InterfaceClaims.

Import FtdiDmxInterface.

Lemma effects_of_app {A} (m : M A) s added :
  trace (m s).2 = trace s ++ added -> effects_of m s = added.
Proof. intros H. unfold effects_of. rewrite H. apply drop_app_length. Qed.

(** C4: for a channel in [1,512] and a value in [0,255], [set_channel]
    followed by [get_channel] on the same channel returns the value. *)
Theorem set_channel_then_get_channel s channel value :
  universe_ok s = true -> 1 <= channel <= 512 -> 0 <= value <= 255 ->
  ((set_channel channel value;; get_channel channel) s).1 = Return value.
Proof.
  intros Hok Hc Hv.
  apply universe_ok_spec in Hok as (Hlen & _).
  unfold mbind, M_bind. rewrite set_channel_in_range by done.
  set (s' := set_highest_updated_channel _ _).
  destruct (get_channel_in_range s' channel) as (v & Hlook & Hget);
    [by (simpl; rewrite length_insert)|done|].
  rewrite Hget. simpl in *.
  rewrite list_lookup_insert_eq in Hlook by lia. congruence.
Qed.

Lemma set_channel_then_get_channel_witness :
  universe_ok (__init__ boot).2 = true
  /\ ((set_channel 7 200;; get_channel 7) (__init__ boot).2).1 = Return 200.
Proof.
  split; [reflexivity|].
  apply set_channel_then_get_channel; [reflexivity|lia|lia].
Defined.

(** C5: [set_channel] with a channel outside [1,512] or a value outside
    [0,255] raises a [ValueError] whose message names the argument that
    was refused, and leaves the state as it was; [get_channel] with a
    channel outside [1,512] does the same. *)
Theorem out_of_range_is_refused s channel value :
  ~ (1 <= channel <= 512) \/ ~ (0 <= value <= 255) ->
  (exists msg,
      set_channel channel value s = (Raise (ValueError msg), s)
      /\ msg = if bool_decide (1 <= channel <= 512)
               then "Value " +:+ str value +:+ " out of range."
               else "Channel " +:+ str channel +:+ " out of range.")
  /\ (~ (1 <= channel <= 512) ->
      get_channel channel s
      = (Raise (ValueError ("Channel " +:+ str channel +:+ " out of range.")),
         s)).
Proof.
  intros Hbad. split; [|apply get_channel_bad_channel].
  case_bool_decide as Hc.
  - destruct Hbad as [Hbad|Hbad]; [done|].
    eexists. split; [by apply set_channel_bad_value|done].
  - eexists. split; [by apply set_channel_bad_channel|done].
Qed.

Lemma out_of_range_is_refused_witness :
  (exists msg,
      set_channel 513 7 (__init__ boot).2
      = (Raise (ValueError msg), (__init__ boot).2)
      /\ msg = "Channel 513 out of range.")
  /\ (~ (1 <= 513 <= 512) ->
      get_channel 513 (__init__ boot).2
      = (Raise (ValueError "Channel 513 out of range."), (__init__ boot).2)).
Proof.
  apply (out_of_range_is_refused (__init__ boot).2 513 7). left. lia.
Defined.

Example set_channel_0 :
  set_channel 0 7 boot = (Raise (ValueError "Channel 0 out of range."), boot).
Proof. reflexivity. Qed.

Example set_channel_256 :
  set_channel 7 256 boot = (Raise (ValueError "Value 256 out of range."), boot).
Proof. reflexivity. Qed.

Example set_channel_minus_1 :
  set_channel 7 (-1) boot = (Raise (ValueError "Value -1 out of range."), boot).
Proof. reflexivity. Qed.

(** C10: when both the channel and the value are out of range, the
    [ValueError] names the channel, not the value, and the state is as
    it was. *)
Theorem channel_is_checked_first s channel value :
  ~ (1 <= channel <= 512) -> ~ (0 <= value <= 255) ->
  set_channel channel value s
  = (Raise (ValueError ("Channel " +:+ str channel +:+ " out of range.")), s)
  /\ "Channel " +:+ str channel +:+ " out of range."
     <> "Value " +:+ str value +:+ " out of range.".
Proof.
  intros Hc _. split; [by apply set_channel_bad_channel|]. simpl. discriminate.
Qed.

Lemma channel_is_checked_first_witness :
  set_channel 0 256 (__init__ boot).2
  = (Raise (ValueError "Channel 0 out of range."), (__init__ boot).2)
  /\ "Channel 0 out of range." <> "Value 256 out of range.".
Proof.
  apply (channel_is_checked_first (__init__ boot).2 0 256); lia.
Defined.

(** C8: a valid [set_channel] stores the value and raises the watermark
    to the maximum of the watermark and the channel, whatever the slot
    held before; no call of [set_channel], valid or not, lowers the
    watermark. *)
Theorem set_channel_raises_watermark s channel value :
  universe_ok s = true -> 1 <= channel <= 512 -> 0 <= value <= 255 ->
  (exists s',
      set_channel channel value s = (Return tt, s')
      /\ _dmx_channels s' = <[Z.to_nat channel := value]> (_dmx_channels s)
      /\ _dmx_channels s' !! Z.to_nat channel = Some value
      /\ _highest_updated_channel s'
         = Z.max (_highest_updated_channel s) channel)
  /\ (forall c v,
        _highest_updated_channel s
        <= _highest_updated_channel (set_channel c v s).2).
Proof.
  intros Hok Hc Hv.
  apply universe_ok_spec in Hok as (Hlen & _). split.
  - rewrite set_channel_in_range by done.
    eexists. split; [reflexivity|]. simpl. repeat split.
    apply list_lookup_insert_eq. lia.
  - intros c v.
    destruct (decide (1 <= c <= 512)) as [Hc'|Hc'];
      [|by rewrite set_channel_bad_channel].
    destruct (decide (0 <= v <= 255)) as [Hv'|Hv'];
      [|by rewrite set_channel_bad_value].
    rewrite set_channel_in_range by done. simpl. lia.
Qed.

(** The slot already holds 0 and the watermark is 0: it goes up to 3. *)
Lemma set_channel_raises_watermark_witness :
  universe_ok (__init__ boot).2 = true
  /\ _dmx_channels (__init__ boot).2 !! 3%nat = Some 0
  /\ _highest_updated_channel (__init__ boot).2 = 0
  /\ exists s',
    set_channel 3 0 (__init__ boot).2 = (Return tt, s')
    /\ _dmx_channels s' = <[3%nat := 0]> (_dmx_channels (__init__ boot).2)
    /\ _dmx_channels s' !! 3%nat = Some 0
    /\ _highest_updated_channel s' = 3.
Proof.
  split; [reflexivity|]. split; [reflexivity|]. split; [reflexivity|].
  apply (set_channel_raises_watermark (__init__ boot).2 3 0);
    [reflexivity|lia|lia].
Defined.

End InterfaceClaims.

(** ** Statements about rendering *)

Section RenderClaims.

Import FtdiDmxInterface.

(** C2, as the code has it: [render] transmits the buffer up to and
    including the watermark, watermark + 1 bytes, and sets the watermark
    to 0.  The packet of 513 zero bytes is the one that [blackout], and
    so the constructor, sends itself, right after [reset]; a [render]
    that follows with no [set_channel] in between transmits the start
    code alone. *)
Theorem render_transmits_prefix s :
  universe_ok s = true ->
  (exists data s',
      render s = (Return tt, s')
      /\ writes (effects_of render s) = [data]
      /\ map byte_to_Z data
         = take (Z.to_nat (_highest_updated_channel s + 1)) (_dmx_channels s)
      /\ Z.of_nat (length data) = _highest_updated_channel s + 1
      /\ _highest_updated_channel s' = 0
      /\ _dmx_channels s' = _dmx_channels s)
  /\ writes (effects_of (reset;; render) s) = [replicate 513 x00]
  /\ writes (effects_of blackout s) = [replicate 513 x00]
  /\ writes (effects_of __init__ s) = [replicate 513 x00]
  /\ writes (effects_of (blackout;; render) s) = [replicate 513 x00; [x00]]
  /\ writes (effects_of (__init__;; render) s) = [replicate 513 x00; [x00]].
Proof.
  intros Hok. split.
  - destruct (render_ok s Hok)
      as (data & s' & Hr & Hmap & Hch & Hh & _ & _ & _ & Htr & _).
    exists data, s'. repeat split; try done.
    + rewrite (effects_of_app render s (packet_effects data));
        [done|by rewrite Hr].
    + destruct (slice_watermark s Hok) as [_ Hlen].
      rewrite <- Hmap, length_map in Hlen.
      apply universe_ok_spec in Hok as (_ & _ & _ & Hhs). lia.
  - destruct (blackout_state s) as (sb & Hb & _ & Hchb & Hhb & Htrb).
    destruct (init_state s) as (si & Hi & _ & Hchi & Hhi & Htri).
    destruct (render_with_data sb [x00])
      as (sb' & Hrb & _ & _ & _ & _ & _ & Htrb' & _);
      [by rewrite Hchb, Hhb|].
    destruct (render_with_data si [x00])
      as (si' & Hri & _ & _ & _ & _ & _ & Htri' & _);
      [by rewrite Hchi, Hhi|].
    assert (writes (effects_of blackout s) = [replicate 513 x00]) as Hwb.
    { rewrite (effects_of_app blackout s
                 (packet_effects (replicate 513 x00))); [done|].
      by rewrite Hb. }
    repeat split.
    + exact Hwb.
    + exact Hwb.
    + rewrite (effects_of_app __init__ s
                 ([DeviceOpen; FtdiSetBaudrate 250000;
                   FtdiSetLineProperty 8 2 0]
                  ++ packet_effects (replicate 513 x00))); [done|].
      by rewrite Hi.
    + rewrite (effects_of_app (blackout;; render) s
                 (packet_effects (replicate 513 x00)
                  ++ packet_effects [x00])); [done|].
      unfold mbind, M_bind. rewrite Hb, Hrb. simpl.
      by rewrite Htrb', Htrb, <- app_assoc.
    + rewrite (effects_of_app (__init__;; render) s
                 (([DeviceOpen; FtdiSetBaudrate 250000;
                    FtdiSetLineProperty 8 2 0]
                   ++ packet_effects (replicate 513 x00))
                  ++ packet_effects [x00])); [done|].
      unfold mbind, M_bind. rewrite Hi, Hri. simpl.
      by rewrite Htri', Htri, <- app_assoc.
Qed.

Lemma render_transmits_prefix_witness :
  universe_ok (set_channel 10 7 (__init__ boot).2).2 = true
  /\ exists data,
    writes (effects_of render (set_channel 10 7 (__init__ boot).2).2) = [data]
    /\ map byte_to_Z data = [0; 0; 0; 0; 0; 0; 0; 0; 0; 0; 7].
Proof.
  split; [reflexivity|].
  destruct (render_transmits_prefix (set_channel 10 7 (__init__ boot).2).2)
    as [(data & s' & _ & Hw & Hmap & _) _]; [reflexivity|].
  exists data. split; [exact Hw|exact Hmap].
Defined.

(** Against C2 as it is worded: the first [render] after the constructor,
    and the first after [blackout], transmits one byte, not 513. *)
Lemma first_render_after_blackout_is_one_byte :
  writes (effects_of render (__init__ boot).2) = [[x00]]
  /\ writes (effects_of render (blackout (__init__ boot).2).2) = [[x00]]
  /\ ~ (exists data,
          writes (effects_of render (__init__ boot).2) = [data]
          /\ length data = 513%nat)
  /\ ~ (exists data,
          writes (effects_of render (blackout (__init__ boot).2).2) = [data]
          /\ length data = 513%nat).
Proof.
  assert (writes (effects_of render (__init__ boot).2) = [[x00]]) as H1
    by reflexivity.
  assert (writes (effects_of render (blackout (__init__ boot).2).2)
          = [[x00]]) as H2 by reflexivity.
  split; [exact H1|]. split; [exact H2|]. split.
  - intros (data & Hd & Hlen). rewrite H1 in Hd.
    injection Hd as <-. discriminate.
  - intros (data & Hd & Hlen). rewrite H2 in Hd.
    injection Hd as <-. discriminate.
Qed.

(** C3: every [render] asserts the break and sleeps for 96 us (at least
    88), releases the break and sleeps for 8 us, writes the packet, and
    sleeps for 2 ms before it returns.  The packet is the data: the
    buffer from the start code to the highest channel written since the
    last packet.  The sleeps are requests that [nanosleep] accepts, and
    the clock has advanced by their sum. *)
Theorem render_frames_the_packet s :
  universe_ok s = true ->
  exists data,
    (render s).1 = Return tt
    /\ map byte_to_Z data
       = take (Z.to_nat (_highest_updated_channel s + 1)) (_dmx_channels s)
    /\ length data = Z.to_nat (_highest_updated_channel s + 1)
    /\ effects_of render s
       = [ FtdiSetLineProperty2 BITS_8 STOP_BITS_2 PARITY_NONE BREAK_ON;
           Nanosleep (mkTimespec 0 96000);
           FtdiSetLineProperty2 BITS_8 STOP_BITS_2 PARITY_NONE BREAK_OFF;
           Nanosleep (mkTimespec 0 8000);
           DeviceWrite data;
           Nanosleep (mkTimespec 0 2000000) ]
    /\ timespec_valid (mkTimespec 0 96000) = true
    /\ timespec_valid (mkTimespec 0 8000) = true
    /\ timespec_valid (mkTimespec 0 2000000) = true
    /\ (88 # 1000000 <= timespec_secs (mkTimespec 0 96000))%Q
    /\ (8 # 1000000 <= timespec_secs (mkTimespec 0 8000))%Q
    /\ (2 # 1000 <= timespec_secs (mkTimespec 0 2000000))%Q
    /\ (clock (render s).2 == clock s + (2104 # 1000000))%Q.
Proof.
  intros Hok.
  destruct (render_ok s Hok)
    as (data & s' & Hr & Hmap & _ & _ & _ & _ & _ & Htr & Hclock).
  pose proof Hok as (Hlen & _ & _ & Hh)%universe_ok_spec.
  exists data. rewrite (effects_of_app render s (packet_effects data))
    by (by rewrite Hr).
  rewrite Hr. simpl. rewrite Hclock.
  split; [done|]. split; [exact Hmap|]. split.
  { rewrite <- (length_map byte_to_Z), Hmap, length_take. lia. }
  repeat split; try done.
  unfold timespec_secs. simpl. ring.
Qed.

(** Channel 2 at 255 after the constructor: the packet is the start
    code, channel 1 and channel 2. *)
Lemma render_frames_the_packet_witness :
  universe_ok (set_channel 2 255 (__init__ boot).2).2 = true
  /\ exists data,
    (render (set_channel 2 255 (__init__ boot).2).2).1 = Return tt
    /\ map byte_to_Z data = [0; 0; 255]
    /\ writes (effects_of render (set_channel 2 255 (__init__ boot).2).2)
       = [data].
Proof.
  split; [reflexivity|].
  destruct (render_frames_the_packet (set_channel 2 255 (__init__ boot).2).2)
    as (data & Hr & Hmap & _ & Heff & _); [reflexivity|].
  exists data. split; [exact Hr|]. split; [exact Hmap|].
  rewrite Heff. reflexivity.
Defined.

(** C9: after the constructor and after any sequence of calls of
    [set_channel], [get_channel], [render], [blackout] and [reset],
    whether they succeed or raise, the buffer has 513 slots, each of
    them a byte, and slot 0 holds 0; every packet written since the
    constructor was called begins with the byte 0. *)
Theorem start_code_is_kept s0 cs :
  let s := perform_all cs (__init__ s0).2 in
  length (_dmx_channels s) = 513%nat
  /\ Forall (fun v => 0 <= v <= 255) (_dmx_channels s)
  /\ _dmx_channels s !! 0%nat = Some 0
  /\ Forall (fun data => head data = Some x00)
       (writes (drop (length (trace s0)) (trace s))).
Proof.
  destruct (init_state s0) as (s1 & Hinit & Hok1 & _ & _ & Htr1).
  rewrite Hinit. simpl.
  destruct (perform_all_ok cs s1 Hok1) as (added & Hok & Htr & Hw).
  apply universe_ok_spec in Hok as (Hlen & Hall & H0 & _).
  repeat split; try done.
  rewrite Htr, Htr1, <- !app_assoc, drop_app_length, !writes_app.
  repeat apply Forall_app_2; try done.
  all: try (rewrite writes_packet; by constructor).
Qed.

End RenderClaims.

(** ** The scheduler's queue *)

Section Queue.

Import sched.




Lemma heappush_perm q ev : heappush q ev ≡ₚ ev :: q.
Proof.
  induction q as [|e q IH]; simpl; [done|].
  destruct (event_ltb ev e); [done|].
  rewrite IH. apply perm_swap.
Qed.


Lemma push_all_perm evs q : fold_left heappush evs q ≡ₚ q ++ evs.
Proof.
  revert q. induction evs as [|ev evs IH]; intros q; simpl.
  - by rewrite app_nil_r.
  - rewrite IH, heappush_perm. simpl. apply Permutation_middle.
Qed.


Lemma scheduled_length now lags seq i items :
  length (scheduled now lags seq i items) = length items.
Proof.
  revert now lags seq i. induction items as [|[delay data] items IH];
    intros now lags seq i; simpl; [done|]. by rewrite IH.
Qed.


Lemma lag_secs_nonneg d : (0 <= lag_secs d)%Q.
Proof. unfold lag_secs, Qle. simpl. lia. Qed.

(** No event is due before its entry's time has passed since the first
    reading of the clock, and the priorities count up from [i]. *)
Lemma scheduled_not_before now lags seq i items :
  Forall2 (fun e tf => (now + tf.1 <= time e)%Q /\ argument e = tf.2)
    (scheduled now lags seq i items) items
  /\ Forall (fun e => i <= priority e) (scheduled now lags seq i items).
Proof.
  revert now lags seq i. induction items as [|[delay data] items IH];
    intros now lags seq i; simpl; [by split; constructor|].
  set (now' := match lags with [] => now | ns :: _ => (now + lag_secs ns)%Q end).
  assert (now <= now')%Q as Hnow.
  { subst now'. destruct lags as [|ns lags]; [lra|].
    pose proof (lag_secs_nonneg ns). lra. }
  destruct (IH now' (tail lags) (seq + 1) (i + 1)) as [Hdue Hprio].
  split.
  - constructor; [simpl; split; [lra|done]|].
    eapply Forall2_impl; [exact Hdue|]. simpl. intros e tf [He Ha].
    split; [lra|done].
  - constructor; [simpl; lia|].
    eapply Forall_impl; [exact Hprio|]. simpl. intros; lia.
Qed.




(** The keys of a dict are different from one another. *)
Lemma dict_set_keys {V} k (v : V) d :
  NoDupA Qeq (map fst d) -> NoDupA Qeq (map fst (dict_set Qeq_bool k v d)).
Proof.
  induction d as [|[k' v'] d IH]; simpl; intros Hnd.
  - repeat constructor. by inversion 1.
  - inversion Hnd as [|? ? Hnotin Hnd']; subst.
    destruct (Qeq_bool k' k) eqn:E; simpl; [by constructor|].
    constructor; [|by apply IH].
    intros Hin. apply Hnotin. clear -Hin E.
    induction d as [|[k'' v''] d IH]; simpl in *.
    + inversion Hin as [? ? Heq|? ? Hin']; subst; [|by inversion Hin'].
      apply Qeq_bool_neq in E. contradiction.
    + destruct (Qeq_bool k'' k) eqn:E'; simpl in *; [done|].
      inversion Hin as [? ? Heq|? ? Hin']; subst; [by left|].
      right. by apply IH.
Qed.

Lemma dict_of_items_keys {V} (items : list (Q * V)) :
  NoDupA Qeq (map fst (dict_of_items Qeq_bool items)).
Proof.
  unfold dict_of_items.
  assert (NoDupA Qeq (map fst (@nil (Q * V)))) as Hnil by constructor.
  revert Hnil. generalize (@nil (Q * V)).
  induction items as [|[k v] items IH]; intros d Hd; simpl; [done|].
  apply IH. by apply dict_set_keys.
Qed.

End Queue.

(** ** Playing a program *)

Section Playback.

Import FtdiDmxInterface sched DmxController.

Lemma frame_in_range_cons channel value (data : Frame) :
  frame_in_range ((channel, value) :: data) = true <->
  (1 <= channel <= 512) /\ (0 <= value <= 255)
  /\ frame_in_range data = true.
Proof.
  unfold frame_in_range. simpl.
  rewrite !andb_true_iff, !Z.leb_le. tauto.
Qed.

(** The writes of a frame, one [set_channel] after the other. *)
Lemma set_frame_state (data : Frame) s :
  length (_dmx_channels s) = 513%nat ->
  frame_in_range data = true ->
  for_each (fun cv => __setitem__ cv.1 cv.2) data s
  = (Return tt,
     mkState (apply_frame data (_dmx_channels s))
       (frame_highest data (_highest_updated_channel s))
       (_program s) (_queue s) (_sequence_generator s) (clock s) (trace s)
       (lag s)).
Proof.
  revert s. induction data as [|[channel value] data IH]; intros s Hlen Hin.
  - by destruct s.
  - apply frame_in_range_cons in Hin as (Hc & Hv & Hin).
    cbn [for_each]. unfold mbind, M_bind, __setitem__. simpl.
    rewrite set_channel_in_range by done.
    rewrite IH; [reflexivity| |done].
    simpl. by rewrite length_insert.
Qed.

Lemma apply_frame_ok (data : Frame) l h :
  frame_in_range data = true ->
  length l = 513%nat -> Forall (fun v => 0 <= v <= 255) l ->
  l !! 0%nat = Some 0 -> 0 <= h <= 512 ->
  length (apply_frame data l) = 513%nat
  /\ Forall (fun v => 0 <= v <= 255) (apply_frame data l)
  /\ apply_frame data l !! 0%nat = Some 0
  /\ 0 <= frame_highest data h <= 512.
Proof.
  revert l h. induction data as [|[channel value] data IH];
    intros l h Hin Hlen Hall H0 Hh; [done|].
  apply frame_in_range_cons in Hin as (Hc & Hv & Hin).
  unfold apply_frame, frame_highest. simpl. apply IH; try done.
  - by rewrite length_insert.
  - by apply Forall_insert.
  - rewrite list_lookup_insert_ne by lia. done.
  - lia.
Qed.

(** One event: the writes of its frame and then a single packet, the
    buffer up to the highest channel written. *)
Lemma callback_state (data : Frame) s :
  universe_ok s = true -> frame_in_range data = true ->
  exists pkt s',
    _scheduler_callback data s = (Return tt, s')
    /\ universe_ok s' = true
    /\ _dmx_channels s' = apply_frame data (_dmx_channels s)
    /\ _highest_updated_channel s' = 0
    /\ _program s' = _program s
    /\ _queue s' = _queue s
    /\ trace s' = trace s ++ packet_effects pkt
    /\ map byte_to_Z pkt
       = take (Z.to_nat (frame_highest data (_highest_updated_channel s) + 1))
           (apply_frame data (_dmx_channels s)).
Proof.
  intros Hok Hin.
  apply universe_ok_spec in Hok as (Hlen & Hall & H0 & Hh).
  destruct (apply_frame_ok data _ _ Hin Hlen Hall H0 Hh)
    as (Hlen' & Hall' & H0' & Hh').
  unfold _scheduler_callback, mbind, M_bind.
  rewrite set_frame_state by done.
  set (s1 := mkState _ _ _ _ _ _ _ _).
  assert (universe_ok s1 = true) as Hok1 by by apply universe_ok_spec.
  destruct (render_keeps_ok s1 Hok1) as (pkt & Hok' & Hr & Htr & _ & Hmap).
  destruct (render_ok s1 Hok1)
    as (pkt' & s' & Hr' & _ & Hch & Hhs & Hp & Hq & _ & _ & _).
  rewrite Hr' in *. simpl in *.
  exists pkt, s'. by repeat split.
Qed.

Lemma time_sleep_state secs s :
  ~ (secs < 0)%Q ->
  time_sleep secs s
  = (Return tt,
     set_clock (clock s + secs)%Q (set_trace (trace s ++ [TimeSleep secs]) s)).
Proof.
  intros Hs. unfold time_sleep.
  destruct (Qlt_le_dec secs 0); [done|reflexivity].
Qed.

(** A reading of the clock changes nothing but the clock, which does
    not go back. *)
Lemma tick_state s :
  _dmx_channels (tick s) = _dmx_channels s
  /\ _highest_updated_channel (tick s) = _highest_updated_channel s
  /\ _program (tick s) = _program s
  /\ _queue (tick s) = _queue s
  /\ _sequence_generator (tick s) = _sequence_generator s
  /\ trace (tick s) = trace s
  /\ lag (tick s) = tail (lag s)
  /\ clock (tick s)
     = match lag s with [] => clock s | ns :: _ => (clock s + lag_secs ns)%Q end
  /\ (clock s <= clock (tick s))%Q.
Proof.
  unfold tick. destruct (lag s) as [|ns rest] eqn:E; simpl.
  - repeat split; [done|lra].
  - repeat split. pose proof (lag_secs_nonneg ns). lra.
Qed.

Lemma time_time_state s : time_time s = (Return (clock (tick s)), tick s).
Proof. reflexivity. Qed.

(** The scheduler has waited for the event: it is due, and nothing but
    the clock and the record of the sleep has changed. *)
Lemma arrive_state (t : Q) s :
  universe_ok (arrive t s) = universe_ok s
  /\ _dmx_channels (arrive t s) = _dmx_channels s
  /\ _highest_updated_channel (arrive t s) = _highest_updated_channel s
  /\ _program (arrive t s) = _program s
  /\ _queue (arrive t s) = _queue s
  /\ (exists a, trace (arrive t s) = trace s ++ a /\ writes a = [])
  /\ (clock s <= clock (arrive t s))%Q /\ (t <= clock (arrive t s))%Q.
Proof.
  unfold arrive. cbv zeta.
  destruct (tick_state s) as (Hch & Hh & Hp & Hq & _ & Htr & _ & _ & Hc).
  destruct (Qlt_le_dec (clock (tick s)) t) as [Hlt|Hle].
  - set (s1 := set_clock _ _).
    destruct (tick_state s1) as (Hch1 & Hh1 & Hp1 & Hq1 & _ & Htr1 & _ & _ & Hc1).
    assert (_dmx_channels s1 = _dmx_channels s
            /\ _highest_updated_channel s1 = _highest_updated_channel s
            /\ _program s1 = _program s /\ _queue s1 = _queue s
            /\ trace s1 = trace s ++ [TimeSleep (t - clock (tick s))%Q]
            /\ clock s1 = (clock (tick s) + (t - clock (tick s)))%Q)
      as (Hch' & Hh' & Hp' & Hq' & Htr' & Hc').
    { subst s1. simpl. by rewrite Hch, Hh, Hp, Hq, Htr. }
    clearbody s1.
    unfold universe_ok. rewrite Hch1, Hh1, Hp1, Hq1, Htr1, Hch', Hh', Hp', Hq', Htr'.
    rewrite Hc' in Hc1.
    repeat split; try lra. by eexists.
  - unfold universe_ok. rewrite Hch, Hh, Hp, Hq, Htr.
    repeat split; try lra. exists []. by rewrite app_nil_r.
Qed.

(** The turns of the loop that an event takes: one, or one to sleep and
    one more; then the event is out of the queue and its action is
    called. *)
Lemma run_loop_cons action n ev q s :
  _queue s = ev :: q ->
  exists n', (n <= n')%nat /\
    run_loop (S (S n)) action s
    = match action (argument ev) (set_queue q (arrive (time ev) s)) with
      | (Return _, s2) =>
          run_loop n' action
            (set_clock (clock s2 + 0)%Q (set_trace (trace s2 ++ [TimeSleep 0]) s2))
      | (Raise e, s2) => (Raise e, s2)
      end.
Proof.
  intros Hq.
  destruct (tick_state s) as (_ & _ & _ & Hq0 & _).
  unfold arrive. cbv zeta.
  cbn [run_loop]. unfold mbind at 1, M_bind at 1, gets. rewrite Hq.
  unfold mbind at 1, M_bind at 1. rewrite time_time_state.
  destruct (Qlt_le_dec (clock (tick s)) (time ev)) as [Hlt|Hle].
  - exists n. split; [lia|].
    unfold mbind at 1, M_bind at 1. rewrite time_sleep_state by lra.
    set (s1 := set_clock _ _).
    destruct (tick_state s1) as (_ & _ & _ & Hq1 & _ & _ & _ & _ & Hc1).
    assert (_queue s1 = ev :: q) as Hqs1 by (by rewrite <- Hq, <- Hq0).
    unfold mbind at 1, M_bind at 1, gets. rewrite Hqs1.
    unfold mbind at 1, M_bind at 1. rewrite time_time_state.
    destruct (Qlt_le_dec (clock (tick s1)) (time ev)) as [Hlt'|Hle'].
    { exfalso. subst s1. cbn [clock set_clock] in Hc1. lra. }
    unfold mbind at 1, M_bind at 1, modify.
    unfold mbind at 1, M_bind at 1.
    destruct (action _ _) as [[[]|e] s2]; [|done].
    unfold mbind at 1, M_bind at 1. by rewrite time_sleep_state by lra.
  - exists (S n). split; [lia|].
    unfold mbind at 1, M_bind at 1, modify.
    unfold mbind at 1, M_bind at 1.
    destruct (action _ _) as [[[]|e] s2]; [|done].
    unfold mbind at 1, M_bind at 1. by rewrite time_sleep_state by lra.
Qed.

(** The action of this program leaves the queue alone, whether it
    returns or raises. *)
Lemma set_channel_queue channel value s :
  _queue (set_channel channel value s).2 = _queue s.
Proof.
  unfold set_channel.
  destruct (negb _); [done|]. destruct (negb _); [done|].
  unfold mbind, M_bind, gets, lift, modify.
  by destruct (setitem _ _ _).
Qed.

Lemma callback_queue (data : Frame) s :
  _queue (_scheduler_callback data s).2 = _queue s.
Proof.
  unfold _scheduler_callback, mbind, M_bind.
  assert (_queue (for_each (fun cv => __setitem__ cv.1 cv.2) data s).2
          = _queue s) as Hfor.
  { revert s. induction data as [|[channel value] data IH]; intros s; [done|].
    cbn [for_each]. unfold mbind, M_bind, __setitem__. cbn [fst snd].
    pose proof (set_channel_queue channel value s) as Hset.
    destruct (set_channel channel value s) as [[[]|e] s1]; [|done].
    rewrite IH. exact Hset. }
  destruct (for_each _ data s) as [[[]|e] s1]; [|done].
  cbn [snd] in Hfor. rewrite <- Hfor.
  destruct (bytes (slice_to (_dmx_channels s1)
                     (_highest_updated_channel s1 + 1))) as [pkt|e] eqn:E.
  - destruct (render_with_data s1 pkt E) as (s' & -> & _ & _ & _ & Hq & _).
    exact Hq.
  - unfold render. unfold mbind at 1 2 3, M_bind at 1 2 3, gets, lift.
    by rewrite E.
Qed.

(** Two turns for each event of the queue are all the loop takes: with
    more turns it comes to the same end. *)
Lemma run_loop_turns n s :
  (2 * length (_queue s) <= n)%nat ->
  run_loop n _scheduler_callback s
  = run_loop (2 * length (_queue s)) _scheduler_callback s.
Proof.
  assert (forall q n m s,
             _queue s = q -> (2 * length q <= n)%nat ->
             (2 * length q <= m)%nat ->
             run_loop n _scheduler_callback s
             = run_loop m _scheduler_callback s) as Hany.
  { clear. induction q as [|ev q IH]; intros n m s Hq Hn Hm.
    - assert (forall k, run_loop k _scheduler_callback s = (Return tt, s))
        as Hnil.
      { intros [|k]; [done|].
        cbn [run_loop]. unfold mbind, M_bind, gets. by rewrite Hq. }
      by rewrite !Hnil.
    - destruct n as [|[|n]]; [simpl in Hn; lia|simpl in Hn; lia|].
      destruct m as [|[|m]]; [simpl in Hm; lia|simpl in Hm; lia|].
      destruct (run_loop_cons _scheduler_callback n ev q s Hq)
        as (n' & Hn' & ->).
      destruct (run_loop_cons _scheduler_callback m ev q s Hq)
        as (m' & Hm' & ->).
      pose proof (callback_queue (argument ev)
                    (set_queue q (arrive (time ev) s))) as Hcb.
      destruct (_scheduler_callback _ _) as [[[]|e] s2]; [|done].
      apply IH; [exact Hcb|simpl in Hn; lia|simpl in Hm; lia]. }
  intros Hn. by apply (Hany (_queue s)).
Qed.

(** The events of the queue fire from the front, one packet each. *)
Lemma run_loop_state q n s :
  (2 * length q <= n)%nat ->
  universe_ok s = true ->
  Forall (fun ev => frame_in_range (argument ev) = true) q ->
  _queue s = q ->
  exists added s',
    run_loop n _scheduler_callback s = (Return tt, s')
    /\ universe_ok s' = true
    /\ _program s' = _program s
    /\ _queue s' = []
    /\ _dmx_channels s'
       = fold_left (fun l data => apply_frame data l) (map argument q)
           (_dmx_channels s)
    /\ trace s' = trace s ++ added
    /\ map (map byte_to_Z) (writes added)
       = packets (_dmx_channels s) (_highest_updated_channel s)
           (map argument q).
Proof.
  revert n s. induction q as [|ev q IH]; intros n s Hn Hok Hin Hq.
  - exists [], s. rewrite app_nil_r.
    split; [|by repeat split].
    destruct n as [|n]; [done|].
    cbn [run_loop]. unfold mbind, M_bind, gets. by rewrite Hq.
  - apply Forall_cons in Hin as [Hev Hin].
    destruct n as [|[|n]]; [simpl in Hn; lia|simpl in Hn; lia|].
    destruct (run_loop_cons _scheduler_callback n ev q s Hq)
      as (n' & Hn' & ->).
    destruct (arrive_state (time ev) s)
      as (Hok1 & Hch1 & Hh1 & Hp1 & _ & (a & Htr1 & Hwa) & _).
    set (s1 := arrive (time ev) s) in *. clearbody s1.
    rewrite Hok in Hok1.
    destruct (callback_state (argument ev) (set_queue q s1))
      as (pkt & s2 & -> & Hok2 & Hch2 & Hh2 & Hp2 & Hq2 & Htr2 & Hmap);
      [done|done|].
    simpl in Hch2, Hh2, Hp2, Hq2, Htr2, Hmap.
    set (s3 := set_clock _ _).
    destruct (IH n' s3) as (a3 & s' & -> & Hok' & Hp' & Hq' & Hch' & Htr' & Hw');
      [simpl in Hn; lia|done|done|done|].
    exists (a ++ packet_effects pkt ++ [TimeSleep 0] ++ a3), s'.
    repeat split; try done.
    + rewrite Hp'. simpl. by rewrite Hp2.
    + rewrite Hch'. simpl. by rewrite Hch2, Hch1.
    + rewrite Htr'. simpl. rewrite Htr2. simpl. rewrite Htr1.
      by rewrite <- !app_assoc.
    + rewrite !writes_app, Hwa, writes_packet. simpl.
      rewrite Hw'. simpl. rewrite Hmap, Hch2, Hh2. simpl.
      by rewrite Hch1, Hh1.
Qed.

(** The loop of [run]: each entry is entered at the reading of the clock
    of its own turn. *)
Lemma enter_all_state items i s :
  exists s',
    enter_all i items s = (Return tt, s')
    /\ _dmx_channels s' = _dmx_channels s
    /\ _highest_updated_channel s' = _highest_updated_channel s
    /\ _program s' = _program s
    /\ _queue s'
       = fold_left heappush
           (scheduled (clock s) (lag s) (_sequence_generator s) i items)
           (_queue s)
    /\ trace s' = trace s
    /\ (clock s <= clock s')%Q.
Proof.
  revert i s. induction items as [|[delay data] items IH]; intros i s.
  - exists s. repeat split. lra.
  - cbn [enter_all]. unfold mbind at 1, M_bind at 1.
    change (enter delay i data s)
      with (Return tt,
            set_queue
              (heappush (_queue (tick s))
                 (mkEvent (clock (tick s) + delay)%Q i
                    (_sequence_generator (tick s)) data))
              (set_sequence_generator (_sequence_generator (tick s) + 1)
                 (tick s))).
    cbv beta iota.
    destruct (tick_state s) as (Hch & Hh & Hp & Hq & Hseq & Htr & Hlag & Hc & Hle).
    set (s1 := set_queue _ _).
    destruct (IH (i + 1) s1) as (s' & -> & Hch' & Hh' & Hp' & Hq' & Htr' & Hc').
    exists s'. split; [done|].
    subst s1. cbn [_dmx_channels _highest_updated_channel _program _queue
                    _sequence_generator trace clock lag set_queue
                    set_sequence_generator] in *.
    rewrite Hch', Hh', Hp', Hq', Htr', Hch, Hh, Hp, Htr, Hlag, Hseq, Hq.
    repeat split; try lra.
    cbn [scheduled fold_left]. rewrite Hc. reflexivity.
Qed.

Lemma call_stop s :
  FtdiDmxInterface.call "stop" s
  = (Raise (AttributeError
              "'FtdiDmxInterface' object has no attribute 'stop'"), s).
Proof. reflexivity. Qed.

End Playback.

(** ** Statements about the controller *)

Section ControllerClaims.

Import FtdiDmxInterface sched DmxController.


(** C6: [run] without a loaded program raises
    [RuntimeError("No program loaded.")]; nothing is scheduled and
    nothing reaches the device: the state is as it was. *)
Theorem run_without_program s :
  _program s = None ->
  run s = (Raise (RuntimeError "No program loaded."), s)
  /\ effects_of run s = []
  /\ _queue (run s).2 = _queue s.
Proof.
  intros Hp.
  assert (run s = (Raise (RuntimeError "No program loaded."), s)) as Hrun.
  { unfold run, mbind, M_bind, gets. by rewrite Hp. }
  rewrite Hrun. repeat split.
  unfold effects_of. rewrite Hrun. apply drop_all.
Qed.

Lemma run_without_program_witness :
  _program (DmxController.__init__ boot).2 = None
  /\ run (DmxController.__init__ boot).2
     = (Raise (RuntimeError "No program loaded."),
        (DmxController.__init__ boot).2).
Proof.
  split; [reflexivity|].
  apply (run_without_program (DmxController.__init__ boot).2). reflexivity.
Defined.

(** C1, on the code: [run] never returns to its caller.  Its last
    statement calls [stop] on the interface, which has no such method.
    After the program [{0.0: {1: 255}}] the call raises
    [AttributeError]; the device has received the constructor's blackout
    and the packet of the event, and no blackout after it: channel 1 is
    left at 255. *)
Theorem run_ends_in_AttributeError :
  (forall s, (run s).1 <> Return tt)
  /\ let r := (DmxController.__init__;; load [(0%Q, [(1, 255)])];; run) boot in
     r.1 = Raise (AttributeError
                    "'FtdiDmxInterface' object has no attribute 'stop'")
     /\ writes (trace r.2) = [replicate 513 x00; [x00; xff]]
     /\ _dmx_channels r.2 !! 1%nat = Some 255.
Proof.
  split.
  - intros s. unfold run, mbind, M_bind, gets.
    destruct (_program s) as [items|]; [|done].
    destruct (enter_all 0 items s) as [[[]|e] s1]; [|done].
    destruct (sched.run _scheduler_callback s1) as [[[]|e] s2]; [|done].
    by rewrite call_stop.
  - vm_compute. done.
Qed.



(** The same program when the clock reads the same at both calls of
    [enter]: the entry with the smaller time fires first. *)
Lemma entries_fire_by_due_time :
  let p := [((1 # 10000000)%Q, [(1, 255)]); (0%Q, [(1, 0)])] in
  let s := ((DmxController.__init__;; load p) boot).2 in
  map (map byte_to_Z) (writes (effects_of run s)) = [[0; 0]; [0; 255]]
  /\ map (map byte_to_Z)
       (writes (effects_of run
                 (set_lag [(0%N, 1%positive); (1%N, 1000000%positive)] s)))
     = [[0; 255]; [0; 0]].
Proof. split; vm_compute; reflexivity. Qed.


End ControllerClaims.

(** ** More about the interface *)

Section InterfaceExtras.

Import FtdiDmxInterface.

Lemma c_long_small z : - 2 ^ 63 <= z < 2 ^ 63 -> c_long z = z.
Proof.
  intros Hz. unfold c_long. rewrite Z.mod_small by lia. lia.
Qed.

Lemma wait_us_request us :
  - 2 ^ 63 <= us < 2 ^ 63 ->
  c_long (us / MS_PER_S) = us / 1000000
  /\ c_long ((us mod MS_PER_S) * NS_PER_MS) = (us mod 1000000) * 1000
  /\ 0 <= (us mod 1000000) * 1000 < 1000000000.
Proof.
  intros Hus. unfold MS_PER_S, NS_PER_MS.
  pose proof (Z.mod_pos_bound us 1000000 ltac:(lia)) as Hmod.
  assert (- 2 ^ 63 <= us / 1000000 < 2 ^ 63) as Hdiv.
  { split.
    - apply Z.div_le_lower_bound; lia.
    - apply Z.div_lt_upper_bound; lia. }
  rewrite !c_long_small by lia. lia.
Qed.

(** The request that [_wait_us] builds. *)
Lemma wait_us_state us s :
  - 2 ^ 63 <= us < 2 ^ 63 ->
  _wait_us us s
  = libc_nanosleep (mkTimespec (us / 1000000) ((us mod 1000000) * 1000)) s.
Proof.
  intros Hus. destruct (wait_us_request us Hus) as (Hs & Hn & _).
  unfold _wait_us. by rewrite Hs, Hn.
Qed.

Lemma nanosleep_valid req s :
  timespec_valid req = true ->
  libc_nanosleep req s
  = (Return tt,
     set_clock (clock s + timespec_secs req)%Q
       (set_trace (trace s ++ [Nanosleep req]) s)).
Proof.
  intros Hv. unfold libc_nanosleep, mbind, M_bind, emit, modify. simpl.
  by rewrite Hv.
Qed.

Lemma nanosleep_invalid req s :
  timespec_valid req = false ->
  libc_nanosleep req s
  = (Return tt, set_trace (trace s ++ [Nanosleep req]) s).
Proof.
  intros Hv. unfold libc_nanosleep, mbind, M_bind, emit, modify. simpl.
  by rewrite Hv.
Qed.

Lemma wait_us_valid us :
  0 <= us < 2 ^ 63 ->
  timespec_valid (mkTimespec (us / 1000000) ((us mod 1000000) * 1000)) = true
  /\ (timespec_secs (mkTimespec (us / 1000000) ((us mod 1000000) * 1000))
      == us # 1000000)%Q.
Proof.
  intros Hus.
  pose proof (Z.mod_pos_bound us 1000000 ltac:(lia)) as Hmod.
  split.
  - unfold timespec_valid. simpl.
    rewrite !andb_true_iff, !Z.leb_le, Z.ltb_lt.
    repeat split; try lia. apply Z.div_pos; lia.
  - unfold timespec_secs, Qeq. simpl.
    pose proof (Z.div_mod us 1000000 ltac:(lia)). lia.
Qed.

(** X1: for a number of microseconds from 0 up to the range of a C long,
    [_wait_us] asks [nanosleep] once and for a request it accepts: whole
    seconds and less than a second of nanoseconds, which add up to the
    microseconds asked for.  The clock advances by that time. *)
Theorem wait_us_sleeps_as_asked us s :
  0 <= us < 2 ^ 63 ->
  exists req s',
    _wait_us us s = (Return tt, s')
    /\ effects_of (_wait_us us) s = [Nanosleep req]
    /\ seconds req = us / 1000000
    /\ nanoseconds req = (us mod 1000000) * 1000
    /\ 0 <= nanoseconds req < 1000000000
    /\ (timespec_secs req == us # 1000000)%Q
    /\ (clock s' == clock s + (us # 1000000))%Q.
Proof.
  intros Hus. destruct (wait_us_valid us Hus) as [Hv Hsecs].
  pose proof (Z.mod_pos_bound us 1000000 ltac:(lia)) as Hmod.
  eexists (mkTimespec _ _), _.
  rewrite wait_us_state, (nanosleep_valid _ _ Hv) by lia.
  split; [reflexivity|]. split.
  { apply effects_of_app. by rewrite wait_us_state, (nanosleep_valid _ _ Hv) by lia. }
  simpl. repeat split; try done; try lia. by rewrite Hsecs.
Qed.

Lemma wait_us_sleeps_as_asked_witness :
  exists req s',
    _wait_us 1500000 boot = (Return tt, s')
    /\ effects_of (_wait_us 1500000) boot = [Nanosleep req]
    /\ seconds req = 1
    /\ nanoseconds req = 500000000
    /\ 0 <= nanoseconds req < 1000000000
    /\ (timespec_secs req == 1500000 # 1000000)%Q
    /\ (clock s' == clock boot + (1500000 # 1000000))%Q.
Proof. apply (wait_us_sleeps_as_asked 1500000 boot). lia. Defined.

(** X2: [_wait_ms] sleeps for the milliseconds asked for. *)
Theorem wait_ms_sleeps_as_asked ms s :
  0 <= ms < 2 ^ 53 ->
  exists req s',
    _wait_ms ms s = (Return tt, s')
    /\ effects_of (_wait_ms ms) s = [Nanosleep req]
    /\ timespec_valid req = true
    /\ (timespec_secs req == ms # 1000)%Q
    /\ (clock s' == clock s + (ms # 1000))%Q.
Proof.
  intros Hms. unfold _wait_ms, US_PER_MS.
  assert (0 <= ms * 1000 < 2 ^ 63) as Hus by lia.
  destruct (wait_us_valid _ Hus) as [Hv Hsecs].
  assert ((ms * 1000 # 1000000) == ms # 1000)%Q as Hq
    by (unfold Qeq; simpl; lia).
  eexists (mkTimespec _ _), _.
  rewrite wait_us_state, (nanosleep_valid _ _ Hv) by lia.
  split; [reflexivity|]. split.
  { apply effects_of_app. by rewrite wait_us_state, (nanosleep_valid _ _ Hv) by lia. }
  simpl. split; [exact Hv|]. by rewrite Hsecs, Hq.
Qed.

Lemma wait_ms_sleeps_as_asked_witness :
  exists req s',
    _wait_ms 2500 boot = (Return tt, s')
    /\ effects_of (_wait_ms 2500) boot = [Nanosleep req]
    /\ timespec_valid req = true
    /\ (timespec_secs req == 2500 # 1000)%Q
    /\ (clock s' == clock boot + (2500 # 1000))%Q.
Proof. apply (wait_ms_sleeps_as_asked 2500 boot). lia. Defined.

(** X3: for a negative number of microseconds the floor division leaves
    a negative number of seconds in the request; [nanosleep] is called
    with it, refuses it, and no time passes. *)
Theorem wait_us_negative_does_not_sleep us s :
  - 2 ^ 63 <= us < 0 ->
  exists req,
    _wait_us us s = (Return tt, set_trace (trace s ++ [Nanosleep req]) s)
    /\ seconds req < 0
    /\ 0 <= nanoseconds req < 1000000000
    /\ timespec_valid req = false
    /\ clock (_wait_us us s).2 = clock s.
Proof.
  intros Hus.
  pose proof (Z.mod_pos_bound us 1000000 ltac:(lia)) as Hmod.
  assert (us / 1000000 < 0) as Hneg by (apply Z.div_lt_upper_bound; lia).
  assert (timespec_valid
            (mkTimespec (us / 1000000) ((us mod 1000000) * 1000)) = false)
    as Hv.
  { unfold timespec_valid. simpl.
    assert ((0 <=? us / 1000000) = false) as -> by (apply Z.leb_gt; lia).
    reflexivity. }
  eexists (mkTimespec _ _).
  rewrite wait_us_state, (nanosleep_invalid _ _ Hv) by lia.
  simpl. repeat split; try done; lia.
Qed.

Lemma wait_us_negative_does_not_sleep_witness :
  exists req,
    _wait_us (-1) boot
    = (Return tt, set_trace (trace boot ++ [Nanosleep req]) boot)
    /\ seconds req < 0
    /\ 0 <= nanoseconds req < 1000000000
    /\ timespec_valid req = false
    /\ clock (_wait_us (-1) boot).2 = clock boot.
Proof. apply (wait_us_negative_does_not_sleep (-1) boot). lia. Defined.

End InterfaceExtras.

(** ** What the universe holds and what goes out *)

Section UniverseExtras.

Import FtdiDmxInterface DmxController.

(** [get_channel] reads the buffer and nothing else. *)
Lemma get_channel_reads_buffer channel s s' :
  _dmx_channels s = _dmx_channels s' ->
  (get_channel channel s).1 = (get_channel channel s').1.
Proof.
  intros Hch. unfold get_channel. destruct (negb _); [reflexivity|].
  unfold mbind, M_bind, gets, lift. simpl. by rewrite Hch.
Qed.

Lemma get_channel_lookup s channel v :
  length (_dmx_channels s) = 513%nat -> 1 <= channel <= 512 ->
  _dmx_channels s !! Z.to_nat channel = Some v ->
  get_channel channel s = (Return v, s).
Proof.
  intros Hlen Hc Hv.
  destruct (get_channel_in_range s channel Hlen Hc) as (v' & Hv' & Hget).
  congruence.
Qed.

Lemma apply_frame_other (data : Frame) l n :
  Forall (fun cv => Z.to_nat cv.1 <> n) data ->
  apply_frame data l !! n = l !! n.
Proof.
  revert l. induction data as [|[c v] data IH]; intros l Hne; [done|].
  apply Forall_cons in Hne as [Hc Hne]. unfold apply_frame. simpl.
  fold (apply_frame data (<[Z.to_nat c:=v]> l)).
  rewrite IH by done. by apply list_lookup_insert_ne.
Qed.

Lemma frame_channels_differ (data : Frame) c :
  frame_in_range data = true -> 1 <= c -> c ∉ map fst data ->
  Forall (fun cv => Z.to_nat cv.1 <> Z.to_nat c) data.
Proof.
  intros Hin Hc Hnotin. apply Forall_forall. intros [c' v'] Hel. simpl.
  unfold frame_in_range in Hin. rewrite forallb_forall in Hin.
  pose proof Hel as Hr. apply list_elem_of_In, Hin in Hr. simpl in Hr.
  assert (c' <> c).
  { intros ->. apply Hnotin, list_elem_of_In, in_map_iff.
    exists (c, v'). split; [done|by apply list_elem_of_In]. }
  apply andb_true_iff in Hr as [Hr _]. apply andb_true_iff in Hr as [Hr _].
  apply andb_true_iff in Hr as [Hr _]. apply Z.leb_le in Hr. lia.
Qed.

(** With different channels, as in a dict, every pair of the frame is in
    the buffer afterwards. *)
Lemma apply_frame_in (data : Frame) l c v :
  frame_in_range data = true -> NoDup (map fst data) ->
  (c, v) ∈ data -> (Z.to_nat c < length l)%nat ->
  apply_frame data l !! Z.to_nat c = Some v.
Proof.
  revert l. induction data as [|[c0 v0] data IH]; intros l Hin Hnd Hel Hlen.
  - by apply elem_of_nil in Hel.
  - apply frame_in_range_cons in Hin as (Hc0 & Hv0 & Hin).
    simpl in Hnd. apply NoDup_cons in Hnd as [Hnotin Hnd].
    unfold apply_frame. simpl.
    fold (apply_frame data (<[Z.to_nat c0:=v0]> l)).
    apply elem_of_cons in Hel as [[= -> ->]|Hel].
    + rewrite apply_frame_other by (apply frame_channels_differ; [done|lia|done]).
      by apply list_lookup_insert_eq.
    + apply IH; try done. by rewrite length_insert.
Qed.

Lemma frame_highest_mono (data : Frame) h : h <= frame_highest data h.
Proof.
  revert h. induction data as [|[c v] data IH]; intros h; [done|].
  unfold frame_highest. simpl. fold (frame_highest data (Z.max h c)).
  specialize (IH (Z.max h c)). lia.
Qed.

Lemma frame_highest_ge (data : Frame) h c v :
  (c, v) ∈ data -> c <= frame_highest data h.
Proof.
  revert h. induction data as [|[c0 v0] data IH]; intros h Hel.
  - by apply elem_of_nil in Hel.
  - unfold frame_highest. simpl. fold (frame_highest data (Z.max h c0)).
    apply elem_of_cons in Hel as [[= -> ->]|Hel].
    + pose proof (frame_highest_mono data (Z.max h c0)). lia.
    + by apply IH.
Qed.

Lemma frame_pair_in_range (data : Frame) c v :
  frame_in_range data = true -> (c, v) ∈ data ->
  1 <= c <= 512 /\ 0 <= v <= 255.
Proof.
  intros Hin Hel. unfold frame_in_range in Hin. rewrite forallb_forall in Hin.
  apply list_elem_of_In, Hin in Hel. simpl in Hel.
  rewrite !andb_true_iff, !Z.leb_le in Hel. lia.
Qed.

(** X4: whatever the universe holds, [__del__] sends one packet, the 513
    zero bytes of a blackout, and closes the device after it; the buffer
    is left dark. *)
Theorem del_blacks_out_and_closes s :
  exists s',
    FtdiDmxInterface.__del__ s = (Return tt, s')
    /\ effects_of FtdiDmxInterface.__del__ s
       = packet_effects (replicate 513 x00) ++ [DeviceClose]
    /\ _dmx_channels s' = replicate 513 0
    /\ _highest_updated_channel s' = 0.
Proof.
  destruct (blackout_state s) as (sb & Hb & _ & Hch & Hh & Htr).
  assert (FtdiDmxInterface.__del__ s
          = (Return tt, set_trace (trace sb ++ [DeviceClose]) sb)) as Hdel.
  { unfold FtdiDmxInterface.__del__, mbind, M_bind. by rewrite Hb. }
  eexists. split; [exact Hdel|]. split.
  - apply effects_of_app. rewrite Hdel. simpl. by rewrite Htr, <- app_assoc.
  - done.
Qed.

(** X5: after [blackout], called in any state, every channel reads 0. *)
Theorem blackout_zeroes_every_channel s channel :
  1 <= channel <= 512 ->
  get_channel channel (blackout s).2 = (Return 0, (blackout s).2).
Proof.
  intros Hc. destruct (blackout_state s) as (sb & Hb & _ & Hch & _).
  rewrite Hb. simpl. apply get_channel_lookup; [by rewrite Hch|done|].
  rewrite Hch. apply lookup_replicate_2. lia.
Qed.

Lemma blackout_zeroes_every_channel_witness :
  get_channel 512 (blackout (set_channel 512 9 (__init__ boot).2).2).2
  = (Return 0, (blackout (set_channel 512 9 (__init__ boot).2).2).2).
Proof.
  apply (blackout_zeroes_every_channel
           (set_channel 512 9 (__init__ boot).2).2 512). lia.
Defined.

(** X6: a valid [set_channel] changes what [get_channel] returns for its
    own channel only. *)
Theorem set_channel_leaves_other_channels s channel value other :
  universe_ok s = true -> 1 <= channel <= 512 -> 0 <= value <= 255 ->
  other <> channel ->
  (get_channel other (set_channel channel value s).2).1
  = (get_channel other s).1.
Proof.
  intros Hok Hc Hv Hne.
  apply universe_ok_spec in Hok as (Hlen & _).
  rewrite set_channel_in_range by done.
  destruct (decide (1 <= other <= 512)) as [Ho|Ho].
  - destruct (get_channel_in_range s other Hlen Ho) as (v & Hlook & Hget).
    rewrite Hget. erewrite get_channel_lookup; [done| |done|].
    + simpl. by rewrite length_insert.
    + simpl. rewrite list_lookup_insert_ne by lia. done.
  - by rewrite !get_channel_bad_channel.
Qed.

Lemma set_channel_leaves_other_channels_witness :
  (get_channel 4 (set_channel 5 9 (set_channel 4 8 (__init__ boot).2).2).2).1
  = (get_channel 4 (set_channel 4 8 (__init__ boot).2).2).1.
Proof.
  apply (set_channel_leaves_other_channels
           (set_channel 4 8 (__init__ boot).2).2 5 9 4);
    [reflexivity|lia|lia|lia].
Defined.

(** X7: [render] changes no stored value, and a second [render] right
    after it sends the start code alone. *)
Theorem render_keeps_values s :
  universe_ok s = true ->
  (forall channel,
      (get_channel channel (render s).2).1 = (get_channel channel s).1)
  /\ writes (effects_of render (render s).2) = [[x00]].
Proof.
  intros Hok.
  destruct (render_keeps_ok s Hok) as (data & Hok' & _ & _ & _ & _).
  destruct (render_ok s Hok)
    as (data' & s' & Hr & _ & Hch & Hh & _ & _ & _ & _ & _).
  rewrite Hr in *. simpl in *. split.
  - intros channel. by apply get_channel_reads_buffer.
  - destruct (render_keeps_ok s' Hok') as (pkt & _ & _ & Htr & _ & Hmap).
    rewrite (effects_of_app render s' (packet_effects pkt) Htr), writes_packet.
    apply universe_ok_spec in Hok' as (Hlen & _ & H0 & _).
    rewrite Hh in Hmap. simpl in Hmap.
    destruct (_dmx_channels s') as [|z l]; [done|].
    injection H0 as ->. simpl in Hmap.
    destruct pkt as [|b [|b' pkt]]; try done.
    injection Hmap as Hb. by rewrite (byte_to_Z_zero b Hb).
Qed.

Lemma render_keeps_values_witness :
  (forall channel,
      (get_channel channel (render (set_channel 3 9 (__init__ boot).2).2).2).1
      = (get_channel channel (set_channel 3 9 (__init__ boot).2).2).1)
  /\ writes (effects_of render
               (render (set_channel 3 9 (__init__ boot).2).2).2) = [[x00]].
Proof.
  apply (render_keeps_values (set_channel 3 9 (__init__ boot).2).2).
  reflexivity.
Defined.

(** X8: when an event with a frame in range has fired, every channel of
    the frame reads the frame's value and had that value in the one
    packet that went out; every other channel reads what it read
    before. *)
Theorem callback_writes_the_frame (data : Frame) s :
  universe_ok s = true -> frame_in_range data = true ->
  NoDup (map fst data) ->
  exists pkt s',
    _scheduler_callback data s = (Return tt, s')
    /\ writes (effects_of (_scheduler_callback data) s) = [pkt]
    /\ (forall channel value,
          (channel, value) ∈ data ->
          get_channel channel s' = (Return value, s')
          /\ map byte_to_Z pkt !! Z.to_nat channel = Some value)
    /\ (forall channel,
          channel ∉ map fst data ->
          (get_channel channel s').1 = (get_channel channel s).1).
Proof.
  intros Hok Hin Hnd.
  destruct (callback_state data s Hok Hin)
    as (pkt & s' & Hcb & Hok' & Hch & Hh & _ & _ & Htr & Hmap).
  pose proof Hok as (Hlen & _)%universe_ok_spec.
  pose proof Hok' as (Hlen' & _)%universe_ok_spec.
  exists pkt, s'. split; [done|]. split.
  { rewrite (effects_of_app _ s (packet_effects pkt)); [done|by rewrite Hcb]. }
  split.
  - intros channel value Hel.
    destruct (frame_pair_in_range data channel value Hin Hel) as [Hc Hv].
    assert (apply_frame data (_dmx_channels s) !! Z.to_nat channel
            = Some value) as Hlook by (apply apply_frame_in; try done; lia).
    split.
    + apply get_channel_lookup; try done. by rewrite Hch.
    + rewrite Hmap, lookup_take_lt; [done|].
      pose proof (frame_highest_ge data (_highest_updated_channel s)
                    channel value Hel). lia.
  - intros channel Hnotin.
    destruct (decide (1 <= channel <= 512)) as [Hc|Hc].
    + destruct (get_channel_in_range s channel Hlen Hc) as (v & Hlook & Hget).
      rewrite Hget. erewrite get_channel_lookup; [done|done|done|].
      rewrite Hch, apply_frame_other; [done|].
      apply frame_channels_differ; [done|lia|done].
    + by rewrite !get_channel_bad_channel.
Qed.

Lemma callback_writes_the_frame_witness :
  exists pkt s',
    _scheduler_callback [(3, 9); (2, 8)] (__init__ boot).2 = (Return tt, s')
    /\ writes (effects_of (_scheduler_callback [(3, 9); (2, 8)])
                 (__init__ boot).2) = [pkt]
    /\ (forall channel value,
          (channel, value) ∈ [(3, 9); (2, 8)] ->
          get_channel channel s' = (Return value, s')
          /\ map byte_to_Z pkt !! Z.to_nat channel = Some value)
    /\ (forall channel,
          channel ∉ map fst [(3, 9); (2, 8)] ->
          (get_channel channel s').1
          = (get_channel channel (__init__ boot).2).1).
Proof.
  apply (callback_writes_the_frame [(3, 9); (2, 8)] (__init__ boot).2);
    [reflexivity|reflexivity|].
  apply (bool_decide_unpack _). vm_compute. exact I.
Defined.

End UniverseExtras.

(** ** Events that fail, and the time a show takes *)

Section PlaybackExtras.

Import FtdiDmxInterface sched DmxController.

(** The message of the range check that refuses a pair. *)
Lemma set_channel_refused s c v :
  ~ (1 <= c <= 512 /\ 0 <= v <= 255) ->
  set_channel c v s
  = (Raise (ValueError
              (if bool_decide (1 <= c <= 512)
               then "Value " +:+ str v +:+ " out of range."
               else "Channel " +:+ str c +:+ " out of range.")), s).
Proof.
  intros Hbad. case_bool_decide as Hc.
  - apply set_channel_bad_value; [done|]. intros Hv. by apply Hbad.
  - by apply set_channel_bad_channel.
Qed.

Lemma set_frame_abort (good rest : Frame) c v s :
  length (_dmx_channels s) = 513%nat ->
  frame_in_range good = true ->
  ~ (1 <= c <= 512 /\ 0 <= v <= 255) ->
  for_each (fun cv => __setitem__ cv.1 cv.2) (good ++ (c, v) :: rest) s
  = (Raise (ValueError
              (if bool_decide (1 <= c <= 512)
               then "Value " +:+ str v +:+ " out of range."
               else "Channel " +:+ str c +:+ " out of range.")),
     mkState (apply_frame good (_dmx_channels s))
       (frame_highest good (_highest_updated_channel s))
       (_program s) (_queue s) (_sequence_generator s) (clock s) (trace s)
       (lag s)).
Proof.
  revert s. induction good as [|[c0 v0] good IH]; intros s Hlen Hin Hbad.
  - simpl. unfold mbind, M_bind, __setitem__. simpl.
    rewrite set_channel_refused by done. by destruct s.
  - apply frame_in_range_cons in Hin as (Hc0 & Hv0 & Hin).
    simpl. unfold mbind, M_bind, __setitem__. simpl.
    rewrite set_channel_in_range by done.
    rewrite IH; [reflexivity| |done|done].
    simpl. by rewrite length_insert.
Qed.

(** X9: an event stops at the first pair of its frame that is out of
    range: the [ValueError] of that pair comes out, nothing is sent, and
    the pairs before it stay written, with the watermark raised for
    them. *)
Theorem callback_stops_at_bad_pair (good rest : Frame) c v s :
  universe_ok s = true -> frame_in_range good = true ->
  ~ (1 <= c <= 512 /\ 0 <= v <= 255) ->
  exists s',
    _scheduler_callback (good ++ (c, v) :: rest) s
    = (Raise (ValueError
                (if bool_decide (1 <= c <= 512)
                 then "Value " +:+ str v +:+ " out of range."
                 else "Channel " +:+ str c +:+ " out of range.")), s')
    /\ effects_of (_scheduler_callback (good ++ (c, v) :: rest)) s = []
    /\ _dmx_channels s' = apply_frame good (_dmx_channels s)
    /\ _highest_updated_channel s'
       = frame_highest good (_highest_updated_channel s)
    /\ universe_ok s' = true.
Proof.
  intros Hok Hin Hbad.
  pose proof Hok as (Hlen & Hall & H0 & Hh)%universe_ok_spec.
  assert (_scheduler_callback (good ++ (c, v) :: rest) s
          = (Raise (ValueError
                      (if bool_decide (1 <= c <= 512)
                       then "Value " +:+ str v +:+ " out of range."
                       else "Channel " +:+ str c +:+ " out of range.")),
             mkState (apply_frame good (_dmx_channels s))
               (frame_highest good (_highest_updated_channel s))
               (_program s) (_queue s) (_sequence_generator s) (clock s)
               (trace s) (lag s))) as Hcb.
  { unfold _scheduler_callback, mbind, M_bind.
    by rewrite set_frame_abort. }
  eexists. split; [exact Hcb|]. split.
  { apply effects_of_app. rewrite Hcb. simpl. by rewrite app_nil_r. }
  simpl. repeat split.
  apply universe_ok_spec. simpl. by apply apply_frame_ok.
Qed.

Lemma callback_stops_at_bad_pair_witness :
  exists s',
    _scheduler_callback ([(1, 255)] ++ (0, 7) :: [(2, 9)]) (__init__ boot).2
    = (Raise (ValueError "Channel 0 out of range."), s')
    /\ effects_of (_scheduler_callback ([(1, 255)] ++ (0, 7) :: [(2, 9)]))
         (__init__ boot).2 = []
    /\ _dmx_channels s'
       = apply_frame [(1, 255)] (_dmx_channels (__init__ boot).2)
    /\ _highest_updated_channel s'
       = frame_highest [(1, 255)] (_highest_updated_channel (__init__ boot).2)
    /\ universe_ok s' = true.
Proof.
  apply (callback_stops_at_bad_pair [(1, 255)] [(2, 9)] 0 7
           (__init__ boot).2); [reflexivity|reflexivity|lia].
Defined.




(** An event in range takes the time of one packet. *)
Lemma callback_clock (data : Frame) s :
  universe_ok s = true -> frame_in_range data = true ->
  (clock (_scheduler_callback data s).2 == clock s + (2104 # 1000000))%Q.
Proof.
  intros Hok Hin.
  pose proof Hok as (Hlen & Hall & H0 & Hh)%universe_ok_spec.
  destruct (apply_frame_ok data _ _ Hin Hlen Hall H0 Hh)
    as (Hlen' & Hall' & H0' & Hh').
  unfold _scheduler_callback, mbind, M_bind.
  rewrite set_frame_state by done.
  set (s1 := mkState _ _ _ _ _ _ _ _).
  assert (universe_ok s1 = true) as Hok1 by by apply universe_ok_spec.
  destruct (render_ok s1 Hok1)
    as (pkt & s' & -> & _ & _ & _ & _ & _ & _ & _ & Hclock).
  simpl. rewrite Hclock. unfold timespec_secs. simpl. ring.
Qed.

Lemma run_loop_clock q n s :
  (2 * length q <= n)%nat ->
  universe_ok s = true ->
  _queue s = q ->
  Forall (fun e => frame_in_range (argument e) = true) q ->
  (clock s + (2104 # 1000000) * inject_Z (len q)
   <= clock (run_loop n _scheduler_callback s).2)%Q
  /\ Forall (fun e =>
               (time e + (2104 # 1000000)
                <= clock (run_loop n _scheduler_callback s).2)%Q) q.
Proof.
  revert n s. induction q as [|ev q IH]; intros n s Hn Hok Hq Hin.
  - assert (run_loop n _scheduler_callback s = (Return tt, s)) as ->.
    { destruct n as [|n]; [done|].
      cbn [run_loop]. unfold mbind, M_bind, gets. by rewrite Hq. }
    cbn [snd].
    split; [|constructor]. change (inject_Z (len [])) with 0%Q. lra.
  - apply Forall_cons in Hin as [Hev Hin].
    destruct n as [|[|n]]; [simpl in Hn; lia|simpl in Hn; lia|].
    destruct (run_loop_cons _scheduler_callback n ev q s Hq)
      as (n' & Hn' & ->).
    destruct (arrive_state (time ev) s)
      as (Hok1 & _ & _ & _ & _ & _ & Hc1 & Ht1).
    set (s1 := arrive (time ev) s) in *. clearbody s1.
    rewrite Hok in Hok1.
    pose proof (callback_clock (argument ev) (set_queue q s1) Hok1 Hev) as Hc2.
    destruct (callback_state (argument ev) (set_queue q s1) Hok1 Hev)
      as (pkt & s2 & Hcb & Hok2 & _ & _ & _ & Hq2 & _).
    rewrite Hcb in *. simpl in Hc2.
    set (s3 := set_clock _ _).
    destruct (IH n' s3) as [Hlow Hall]; [simpl in Hn; lia|done|done|done|].
    assert (clock s3 == clock s2 + 0)%Q as Hc3 by reflexivity.
    assert (0 <= inject_Z (len q))%Q as Hlen.
    { unfold len. change 0%Q with (inject_Z 0). rewrite <- Zle_Qle. lia. }
    assert (inject_Z (len (ev :: q)) == inject_Z (len q) + 1)%Q as Hsucc.
    { unfold len. simpl length. rewrite Nat2Z.inj_succ, <- Z.add_1_r.
      rewrite inject_Z_plus. reflexivity. }
    split.
    + rewrite Hsucc. nra.
    + constructor; [nra|done].
Qed.

(** X11: a program in range is not over before its last entry is due
    and has been sent, and it takes at least the 2.104 ms of a packet for
    each entry, however close together the entries are due. *)
Theorem run_takes_its_time s p :
  _program s = Some p -> _queue s = [] ->
  universe_ok s = true -> program_in_range p = true ->
  (clock s + (2104 # 1000000) * inject_Z (len p) <= clock (run s).2)%Q
  /\ Forall (fun tf =>
               (clock s + tf.1 + (2104 # 1000000) <= clock (run s).2)%Q) p.
Proof.
  intros Hp Hq Hok Hin.
  set (fired := fold_left heappush
                  (scheduled (clock s) (lag s) (_sequence_generator s) 0 p) []).
  assert (fired ≡ₚ scheduled (clock s) (lag s) (_sequence_generator s) 0 p)
    as Hperm by apply push_all_perm.
  assert (Forall (fun ev => frame_in_range (argument ev) = true) fired)
    as Hfired.
  { rewrite Hperm. clear -Hin. unfold program_in_range in Hin.
    generalize (clock s) (lag s) (_sequence_generator s) 0.
    induction p as [|[delay data] p IH]; intros now lags seq i; simpl in *.
    - constructor.
    - apply andb_true_iff in Hin as [Hd Hin]. constructor; [done|].
      by apply IH. }
  destruct (enter_all_state p 0 s)
    as (s1 & Henter & Hch1 & Hh1 & _ & Hq1 & _ & Hc1).
  rewrite Hq in Hq1. fold fired in Hq1.
  assert (universe_ok s1 = true) as Hok1.
  { unfold universe_ok. rewrite Hch1, Hh1. exact Hok. }
  destruct (run_loop_state fired (2 * length fired) s1 (le_n _) Hok1 Hfired Hq1)
    as (added & s2 & Hrun & _).
  destruct (run_loop_clock fired (2 * length fired) s1 (le_n _) Hok1 Hq1 Hfired)
    as [Hlow Hall].
  rewrite Hrun in Hlow, Hall. simpl in Hlow, Hall.
  assert (run s
          = (Raise (AttributeError
                      "'FtdiDmxInterface' object has no attribute 'stop'"),
             s2)) as Hr.
  { unfold run, mbind at 1, M_bind at 1, gets. rewrite Hp.
    unfold mbind at 1, M_bind at 1. rewrite Henter.
    unfold mbind at 1, M_bind at 1, sched.run.
    unfold mbind at 1, M_bind at 1, gets. rewrite Hq1, Hrun.
    by rewrite call_stop. }
  rewrite Hr. simpl. split.
  - assert (len fired = len p) as <-.
    { unfold len. by rewrite Hperm, scheduled_length. }
    lra.
  - rewrite Hperm in Hall.
    destruct (scheduled_not_before (clock s) (lag s) (_sequence_generator s)
                0 p) as [Hdue _].
    clear -Hall Hdue. revert Hall Hdue.
    generalize (scheduled (clock s) (lag s) (_sequence_generator s) 0 p).
    induction p as [|tf p IH]; intros evs Hall Hdue.
    + constructor.
    + apply Forall2_cons_inv_r in Hdue as (e & evs' & [He _] & Hdue & ->).
      apply Forall_cons in Hall as [H1 Hall].
      constructor; [lra|]. by eapply IH.
Qed.

(** Three entries due at the same millisecond. *)
Lemma run_takes_its_time_witness :
  let p := [((1 # 1000)%Q, [(1, 255)]); ((1001 # 1000000)%Q, [(2, 255)]);
            ((1002 # 1000000)%Q, [(3, 255)])] in
  let s := ((DmxController.__init__;; load p) boot).2 in
  (clock s + (2104 # 1000000) * inject_Z (len p) <= clock (run s).2)%Q
  /\ Forall (fun tf =>
               (clock s + tf.1 + (2104 # 1000000) <= clock (run s).2)%Q) p.
Proof.
  intros p s.
  apply (run_takes_its_time s p);
    [reflexivity|reflexivity|reflexivity|reflexivity].
Defined.

End PlaybackExtras.

(** ** Dicts, and loading a program *)

Section DictFacts.

Context {K V : Type} (eqb : K -> K -> bool) (R : relation K).
Context (R_equiv : Equivalence R).
Context (eqb_spec : forall a b, eqb a b = true <-> R a b).

Lemma dict_get_set k k' (v : V) d :
  dict_get eqb k (dict_set eqb k' v d)
  = if eqb k' k then Some v else dict_get eqb k d.
Proof.
  induction d as [|[k0 v0] d IH]; simpl; [done|].
  destruct (eqb k0 k') eqn:E0; simpl.
  - destruct (eqb k0 k) eqn:E1, (eqb k' k) eqn:E2; try done.
    + apply eqb_spec in E0, E1.
      assert (eqb k' k = true) as E by (apply eqb_spec; by rewrite <- E0).
      congruence.
    + apply eqb_spec in E0, E2.
      assert (eqb k0 k = true) as E by (apply eqb_spec; by rewrite E0).
      congruence.
  - destruct (eqb k0 k) eqn:E1; [|done].
    destruct (eqb k' k) eqn:E2; [|done].
    apply eqb_spec in E1, E2.
    assert (eqb k0 k' = true) as E by (apply eqb_spec; by rewrite E1, E2).
    congruence.
Qed.

Lemma dict_set_fresh k (v : V) d :
  Forall (fun kv => ~ R kv.1 k) d -> dict_set eqb k v d = d ++ [(k, v)].
Proof.
  induction 1 as [|[k0 v0] d Hk _ IH]; simpl; [done|].
  destruct (eqb k0 k) eqn:E; [by apply eqb_spec in E|]. by rewrite IH.
Qed.

Lemma dict_set_NoDupA k (v : V) d :
  NoDupA R (map fst d) -> NoDupA R (map fst (dict_set eqb k v d)).
Proof.
  induction d as [|[k0 v0] d IH]; simpl; intros Hnd.
  - repeat constructor. by inversion 1.
  - inversion Hnd as [|? ? Hnotin Hnd']; subst.
    destruct (eqb k0 k) eqn:E; simpl; [by constructor|].
    constructor; [|by apply IH].
    intros Hin. apply Hnotin. clear -Hin E eqb_spec.
    induction d as [|[k1 v1] d IH]; simpl in *.
    + inversion Hin as [? ? Heq|? ? Hin']; subst; [|by inversion Hin'].
      apply eqb_spec in Heq. congruence.
    + destruct (eqb k1 k) eqn:E'; simpl in *; [done|].
      inversion Hin as [? ? Heq|? ? Hin']; subst; [by left|].
      right. by apply IH.
Qed.

Lemma dict_of_items_NoDupA (items : list (K * V)) :
  NoDupA R (map fst (dict_of_items eqb items)).
Proof.
  unfold dict_of_items.
  assert (NoDupA R (map fst (@nil (K * V)))) as Hnil by constructor.
  revert Hnil. generalize (@nil (K * V)).
  induction items as [|[k v] items IH]; intros d Hd; simpl; [done|].
  apply IH. by apply dict_set_NoDupA.
Qed.

Lemma NoDupA_fresh (acc : list (K * V)) k v rest :
  NoDupA R (map fst (acc ++ (k, v) :: rest)) ->
  Forall (fun kv => ~ R kv.1 k) acc.
Proof.
  induction acc as [|[k0 v0] acc IH]; simpl; intros Hnd; [constructor|].
  inversion Hnd as [|? ? Hnotin Hnd']; subst.
  constructor; [|by apply IH]. simpl. intros HR. apply Hnotin.
  rewrite map_app. apply InA_app_iff. right. by left.
Qed.

(** Items whose keys differ make the dict that lists them in order. *)
Lemma dict_of_items_distinct (items : list (K * V)) :
  NoDupA R (map fst items) -> dict_of_items eqb items = items.
Proof.
  unfold dict_of_items.
  enough (forall acc,
             NoDupA R (map fst (acc ++ items)) ->
             fold_left (fun d kv => dict_set eqb kv.1 kv.2 d) items acc
             = acc ++ items) as Hgen by (intros Hnd; by apply (Hgen [])).
  induction items as [|[k v] items IH]; intros acc Hnd; simpl.
  - by rewrite app_nil_r.
  - rewrite dict_set_fresh by (by eapply NoDupA_fresh).
    rewrite IH; [by rewrite <- app_assoc|]. by rewrite <- app_assoc.
Qed.

(** Of the items with the same key, the last one gives the value. *)
Lemma dict_of_items_get (items : list (K * V)) k :
  dict_get eqb k (dict_of_items eqb items) = dict_get eqb k (rev items).
Proof.
  unfold dict_of_items.
  enough (forall acc,
             dict_get eqb k
               (fold_left (fun d kv => dict_set eqb kv.1 kv.2 d) items acc)
             = match dict_get eqb k (rev items) with
               | Some v => Some v
               | None => dict_get eqb k acc
               end) as Hgen.
  { rewrite Hgen. by destruct (dict_get eqb k (rev items)). }
  assert (forall (l1 l2 : list (K * V)),
             dict_get eqb k (l1 ++ l2)
             = match dict_get eqb k l1 with
               | Some v => Some v
               | None => dict_get eqb k l2
               end) as Happ.
  { induction l1 as [|[k0 v0] l1 IH1]; intros l2; simpl; [done|].
    by destruct (eqb k0 k). }
  induction items as [|[k0 v0] items IH]; intros acc; simpl; [done|].
  rewrite IH, Happ, dict_get_set. simpl.
  destruct (dict_get eqb k (rev items)); [done|].
  by destruct (eqb k0 k).
Qed.

End DictFacts.

(** What holds of the values of the items holds of the values of the
    dict. *)
Lemma dict_of_items_values {K V} (eqb : K -> K -> bool) (P : V -> Prop)
    (items : list (K * V)) :
  Forall (fun kv => P kv.2) items ->
  Forall (fun kv => P kv.2) (dict_of_items eqb items).
Proof.
  unfold dict_of_items.
  enough (forall acc,
             Forall (fun kv : K * V => P kv.2) acc ->
             Forall (fun kv : K * V => P kv.2) items ->
             Forall (fun kv : K * V => P kv.2)
               (fold_left (fun d kv => dict_set eqb kv.1 kv.2 d) items acc))
    as Hgen by (intros Hitems; apply Hgen; [constructor|done]).
  induction items as [|[k v] items IH]; intros acc Hacc Hitems; simpl;
    [done|].
  apply Forall_cons in Hitems as [Hv Hitems]. apply IH; [|done].
  clear -Hacc Hv. induction Hacc as [|[k0 v0] acc H0 Hacc IH]; simpl.
  - by repeat constructor.
  - destruct (eqb k0 k); by constructor.
Qed.

Section LoadExtras.

Import DmxController.

Lemma NoDupA_eq_NoDup {A} (l : list A) : NoDupA eq l <-> NoDup l.
Proof.
  induction l as [|a l IH]; split; intros Hnd; try constructor;
    inversion Hnd as [|? ? Hnotin Hnd']; subst.
  - intros Hin. apply Hnotin, InA_alt. exists a. split; [done|].
    by apply list_elem_of_In.
  - by apply IH.
  - intros (y & -> & Hin)%InA_alt. by apply Hnotin, list_elem_of_In.
  - by apply IH.
Qed.

Lemma Z_eqb_spec a b : (a =? b) = true <-> a = b.
Proof. apply Z.eqb_eq. Qed.

(** On a program of the declared type [load] stores a program whose
    times differ from one another and whose frames have channels that
    differ from one another, and touches nothing but the program; items
    that are like that already are stored as they are, in their
    order. *)
Lemma load_builds_dicts items s :
  exists p,
    load items s = (Return tt, set_program (Some p) s)
    /\ NoDupA Qeq (map fst p)
    /\ Forall (fun tf => NoDup (map fst tf.2)) p
    /\ (NoDupA Qeq (map fst items) ->
        Forall (fun tf => NoDup (map fst tf.2)) items ->
        p = items).
Proof.
  eexists. split; [reflexivity|]. split; [|split].
  - apply (dict_of_items_NoDupA Qeq_bool Qeq Qeq_bool_iff).
  - set (frames := map _ items).
    assert (Forall (fun tf : Q * Frame => NoDup (map fst tf.2)) frames) as Hf.
    { subst frames. apply Forall_forall. intros tf Hel.
      apply list_elem_of_In, in_map_iff in Hel as ([t f] & <- & _). simpl.
      apply NoDupA_eq_NoDup.
      apply (dict_of_items_NoDupA Z.eqb eq Z_eqb_spec). }
    by apply (dict_of_items_values Qeq_bool (fun f => NoDup (map fst f))).
  - intros Hnd Hframes.
    assert (map (fun tf : Q * list (Z * Z) =>
                   (tf.1, dict_of_items Z.eqb tf.2)) items = items) as ->.
    { clear Hnd. induction Hframes as [|[t f] items Hd _ IH]; simpl; [done|].
      rewrite IH. do 2 f_equal.
      apply (dict_of_items_distinct Z.eqb eq Z_eqb_spec).
      by apply NoDupA_eq_NoDup. }
    by apply (dict_of_items_distinct Qeq_bool Qeq Qeq_bool_iff).
Qed.

(** X13: of the items that [load] is given with equal times, the frame
    of the last one is the frame that is played at that time; within a
    frame, of the pairs with the same channel, the value of the last one
    is the value that is written. *)
Theorem load_keeps_the_last items s t :
  exists p,
    load items s = (Return tt, set_program (Some p) s)
    /\ dict_get Qeq_bool t p
       = option_map (dict_of_items Z.eqb) (dict_get Qeq_bool t (rev items))
    /\ (forall (pairs : list (Z * Z)) channel,
          dict_get Z.eqb channel (dict_of_items Z.eqb pairs)
          = dict_get Z.eqb channel (rev pairs)).
Proof.
  eexists. split; [reflexivity|]. split.
  - rewrite (dict_of_items_get Qeq_bool Qeq Q_Setoid Qeq_bool_iff).
    rewrite <- map_rev.
    induction (rev items) as [|[t0 f0] l IH]; simpl; [done|].
    by destruct (Qeq_bool t0 t).
  - intros pairs channel.
    apply (dict_of_items_get Z.eqb eq _ Z_eqb_spec).
Qed.

(** A comprehension whose keys and values come from functions that
    leave the state alone stores the pairs one after the other, and
    stops at the first that raises. *)
Lemma dict_comprehension_pure {A K V} (eqb : K -> K -> bool)
    (key : A -> M K) (value : A -> M V)
    (k : A -> result K) (v : A -> result V) l d s :
  (forall x s, key x s = (k x, s)) ->
  (forall x s, value x s = (v x, s)) ->
  Untyped.dict_comprehension eqb key value l d s
  = match traverse (both k v) l with
    | Raise e => (Raise e, s)
    | Return kvs =>
        (Return (fold_left (fun d kv => dict_set eqb kv.1 kv.2 d) kvs d), s)
    end.
Proof.
  intros Hkey Hvalue. revert d.
  induction l as [|x l IH]; intros d; [done|].
  cbn [Untyped.dict_comprehension traverse].
  unfold mbind at 1, M_bind at 1. rewrite Hkey. unfold both at 1.
  destruct (k x) as [a|e]; [|done].
  unfold mbind at 1, M_bind at 1. rewrite Hvalue.
  destruct (v x) as [b|e]; [|done].
  rewrite IH. by destruct (traverse (both k v) l).
Qed.

Lemma traverse_both_map {A K V W} (k : A -> result K) (v : A -> result V)
    (g : V -> W) l :
  traverse (both k (fun x => match v x with
                             | Raise e => Raise e
                             | Return b => Return (g b)
                             end)) l
  = match traverse (both k v) l with
    | Raise e => Raise e
    | Return kvs => Return (map (fun kv => (kv.1, g kv.2)) kvs)
    end.
Proof.
  induction l as [|x l IH]; [done|].
  cbn [traverse]. unfold both at 1 3.
  destruct (k x) as [a|e]; [|done]. destruct (v x) as [b|e]; [|done].
  rewrite IH. by destruct (traverse (both k v) l).
Qed.

(** X12: [load] on any argument either raises, and then leaves the
    state as it was, a program that was loaded before included, or it
    returns after every conversion has returned, and then it has done
    what it does on the converted program: it has changed nothing but the
    program, whose times differ from one another and each of whose
    frames has channels that differ from one another.  The exception is
    that of the first step that raises: opening and parsing the file
    when the argument is a string, [items()] of the program, and then
    entry by entry [float] of the time, [items()] of the frame, and pair
    by pair [int] of the channel and [int] of the value. *)
Theorem load_all_or_nothing {object} (py : builtins object) program s :
  match typed_program py program with
  | Raise e => Untyped.load py program s = (Raise e, s)
  | Return items =>
      Untyped.load py program s = load items s
      /\ exists p,
          load items s = (Return tt, set_program (Some p) s)
          /\ NoDupA Qeq (map fst p)
          /\ Forall (fun tf => NoDup (map fst tf.2)) p
  end.
Proof.
  assert (Untyped.load py program s
          = match typed_program py program with
            | Raise e => (Raise e, s)
            | Return items => load items s
            end) as Hload.
  { unfold typed_program, Untyped.load.
    unfold mbind at 1, M_bind at 1.
    assert (match isinstance_str py program with
            | Some filename => lift (open_json_load py filename)
            | None => mret program
            end s
            = (match isinstance_str py program with
               | Some filename => open_json_load py filename
               | None => Return program
               end, s)) as -> by by destruct (isinstance_str py program).
    destruct (match isinstance_str py program with
              | Some filename => open_json_load py filename
              | None => Return program
              end) as [document|e]; [|done].
    unfold mbind at 1, M_bind at 1, lift at 1.
    destruct (dict_items py document) as [entries|e]; [|done].
    unfold mbind at 1, M_bind at 1.
    rewrite (dict_comprehension_pure Qeq_bool _ _
               (fun tf => float py tf.1)
               (fun tf => match typed_frame py tf.2 with
                          | Raise e => Raise e
                          | Return pairs => Return (dict_of_items Z.eqb pairs)
                          end)).
    - rewrite traverse_both_map.
      by destruct (traverse _ entries) as [items|e].
    - done.
    - intros tf s'. unfold typed_frame, mbind at 1, M_bind at 1, lift at 1.
      destruct (dict_items py tf.2) as [pairs|e]; [|done].
      rewrite (dict_comprehension_pure Z.eqb _ _
                 (fun cv => int py cv.1) (fun cv => int py cv.2)) by done.
      by destruct (traverse _ pairs). }
  rewrite Hload. destruct (typed_program py program) as [items|e]; [|done].
  split; [reflexivity|].
  destruct (load_builds_dicts items s) as (p & Hp & Hnd & Hframes & _).
  by exists p.
Qed.

End LoadExtras.

(** ** The converter: pairs *)

Section PairsExtras.

Import QxwConverter.

Lemma getitem_shift {A} (a b : A) l i :
  0 <= i -> getitem (a :: b :: l) (i + 2) = getitem l i.
Proof.
  intros Hi. unfold getitem, index_of, len. cbv zeta.
  assert ((i + 2 <? 0) = false) as E1 by (apply Z.ltb_ge; lia).
  assert ((i <? 0) = false) as E2 by (apply Z.ltb_ge; lia).
  rewrite E1, E2. cbv iota. rewrite E1, E2. simpl length. simpl orb.
  destruct (Z.leb_spec (Z.of_nat (length l)) i) as [Hle|Hlt].
  - assert ((Z.of_nat (S (S (length l))) <=? i + 2) = true) as ->
      by (apply Z.leb_le; lia). done.
  - assert ((Z.of_nat (S (S (length l))) <=? i + 2) = false) as ->
      by (apply Z.leb_gt; lia).
    replace (Z.to_nat (i + 2)) with (S (S (Z.to_nat i))) by lia. done.
Qed.

Lemma getitem_in_bounds {A} (l : list A) i x :
  0 <= i -> l !! Z.to_nat i = Some x -> getitem l i = Return x.
Proof.
  intros Hi Hx. unfold getitem, index_of, len. cbv zeta.
  assert ((i <? 0) = false) as E1 by (apply Z.ltb_ge; lia).
  rewrite E1. cbv iota. rewrite E1. simpl orb.
  apply lookup_lt_Some in Hx as Hlt.
  assert ((Z.of_nat (length l) <=? i) = false) as ->
    by (apply Z.leb_gt; lia).
  by rewrite Hx.
Qed.

Lemma pairs_at_shift {A} (a b : A) l indices :
  Forall (fun i => 0 <= i) indices ->
  pairs_at (a :: b :: l) (map (fun i => i + 2) indices) = pairs_at l indices.
Proof.
  induction 1 as [|i indices Hi _ IH]; simpl; [done|].
  rewrite getitem_shift by done.
  replace (i + 2 + 1) with (i + 1 + 2) by lia.
  rewrite getitem_shift by lia. by rewrite IH.
Qed.

Lemma range_by_2_nonneg n : Forall (fun i => 0 <= i) (range_by_2 n).
Proof.
  unfold range_by_2. apply Forall_forall. intros i Hi.
  apply list_elem_of_In, in_map_iff in Hi as (k & <- & _). lia.
Qed.

Lemma range_by_2_step n :
  0 <= n ->
  range_by_2 (n + 2) = 0 :: map (fun i => i + 2) (range_by_2 n).
Proof.
  intros Hn. unfold range_by_2.
  replace ((n + 2 + 1) / 2) with ((n + 1) / 2 + 1)
    by (rewrite <- Z.div_add by lia; f_equal; lia).
  assert (0 <= (n + 1) / 2) by (apply Z.div_pos; lia).
  replace (Z.to_nat ((n + 1) / 2 + 1)) with (S (Z.to_nat ((n + 1) / 2)))
    by lia.
  simpl. f_equal. rewrite <- seq_shift, !map_map.
  apply map_ext. intros k. lia.
Qed.

Lemma make_pairs_step {A} (a b : A) l :
  make_pairs (a :: b :: l)
  = match make_pairs l with
    | Return ps => Return ((a, b) :: ps)
    | Raise e => Raise e
    end.
Proof.
  unfold make_pairs, len. simpl length.
  replace (Z.of_nat (S (S (length l)))) with (Z.of_nat (length l) + 2) by lia.
  rewrite range_by_2_step by lia.
  cbn [pairs_at].
  rewrite (getitem_in_bounds (a :: b :: l) 0 a) by done.
  rewrite (getitem_in_bounds (a :: b :: l) (0 + 1) b) by done.
  by rewrite pairs_at_shift by apply range_by_2_nonneg.
Qed.

(** X14: on a list of even length [make_pairs] returns the pairs of
    neighbours, half as many as the list is long, and the pairs laid end
    to end are the list again; on a list of odd length it raises
    [IndexError] at the last element. *)
Theorem make_pairs_pairs_up {A} (container : list A) :
  if Nat.even (length container)
  then exists ps,
      make_pairs container = Return ps
      /\ (2 * length ps = length container)%nat
      /\ concat (map (fun ab => [ab.1; ab.2]) ps) = container
  else make_pairs container = Raise (IndexError "list index out of range").
Proof.
  enough ((if Nat.even (length container)
           then exists ps,
               make_pairs container = Return ps
               /\ (2 * length ps = length container)%nat
               /\ concat (map (fun ab => [ab.1; ab.2]) ps) = container
           else make_pairs container
                = Raise (IndexError "list index out of range"))
          /\ forall a,
             if Nat.even (length (a :: container))
             then exists ps,
                 make_pairs (a :: container) = Return ps
                 /\ (2 * length ps = length (a :: container))%nat
                 /\ concat (map (fun ab => [ab.1; ab.2]) ps) = a :: container
             else make_pairs (a :: container)
                  = Raise (IndexError "list index out of range")) as [H _]
    by exact H.
  induction container as [|b container [IH0 IH1]].
  - split; [by exists []|]. intros a. reflexivity.
  - split; [apply IH1|]. intros a.
    change (Nat.even (length (a :: b :: container)))
      with (Nat.even (length container)).
    rewrite make_pairs_step.
    destruct (Nat.even (length container)).
    + destruct IH0 as (ps & -> & Hlen & Hflat).
      exists ((a, b) :: ps). repeat split; simpl; [lia|by rewrite Hflat].
    + by rewrite IH0.
Qed.

End PairsExtras.

(** ** The converter: delta compression *)

Section CompressExtras.

Import QxwConverter.











(** X16: [_compress] stores no empty frame, and every pair it stores is
    a pair of a frame of the program, at an equal time. *)
Theorem compress_stores_changes_only (p : Program) :
  Forall (fun tf => tf.2 <> []) (_compress p)
  /\ (forall t cf c v,
        (t, cf) ∈ _compress p -> (c, v) ∈ cf ->
        exists t' frame, (t', frame) ∈ p /\ (t' == t)%Q /\ (c, v) ∈ frame).
Proof.
  unfold _compress.
  enough (forall out last_frame,
             let P := fun out : Program =>
               Forall (fun tf => tf.2 <> []) out
               /\ (forall t cf c v,
                     (t, cf) ∈ out -> (c, v) ∈ cf ->
                     exists t' frame,
                       (t', frame) ∈ p /\ (t' == t)%Q /\ (c, v) ∈ frame) in
             forall rest,
               (forall tf, tf ∈ rest -> tf ∈ p) -> P out ->
               P (fold_left
                    (fun acc tf =>
                       let compressed_frame := compress_frame acc.2 tf.2 in
                       (if 0 <? len compressed_frame
                        then dict_set Qeq_bool tf.1 compressed_frame acc.1
                        else acc.1, tf.2))
                    rest (out, last_frame)).1) as Hgen.
  { apply (Hgen [] [] p); [done|]. split; [constructor|].
    intros t cf c v Hel. by apply elem_of_nil in Hel. }
  intros out last_frame P rest. revert out last_frame.
  induction rest as [|[t frame] rest IH]; intros out last_frame Hsub HP;
    [done|].
  cbn [fold_left fst snd]. apply IH.
  { intros tf Htf. apply Hsub. by right. }
  set (cf := compress_frame last_frame frame).
  assert (forall c v, (c, v) ∈ cf -> (c, v) ∈ frame) as Hcf.
  { subst cf. unfold compress_frame.
    enough (forall acc : Frame,
               (forall c v, (c, v) ∈ acc -> (c, v) ∈ frame) ->
               forall fr,
                 (forall cv, cv ∈ fr -> cv ∈ frame) ->
                 forall c v,
                   (c, v) ∈ fold_left
                     (fun compressed_frame cv =>
                        if match dict_get Z.eqb cv.1 last_frame with
                           | Some v => negb (v =? cv.2)
                           | None => true
                           end
                        then dict_set Z.eqb cv.1 cv.2 compressed_frame
                        else compressed_frame) fr acc ->
                   (c, v) ∈ frame) as Hacc.
    { apply (Hacc []); [|done]. intros c v Hel. by apply elem_of_nil in Hel. }
    intros acc Hacc fr. revert acc Hacc.
    induction fr as [|[c0 v0] fr IHfr]; intros acc Hacc Hfr c v; simpl;
      [apply Hacc|].
    apply IHfr; [|intros cv Hcv; apply Hfr; by right].
    destruct (match dict_get Z.eqb c0 last_frame with
              | Some v1 => negb (v1 =? v0)
              | None => true
              end); [|done].
    clear -Hacc Hfr. intros c' v' Hel.
    assert ((c0, v0) ∈ frame) as H0 by (apply Hfr; by left).
    induction acc as [|[c1 v1] acc IHacc]; simpl in Hel.
    - apply list_elem_of_singleton in Hel as ->. done.
    - destruct (Z.eqb_spec c1 c0) as [->|Hne].
      + apply elem_of_cons in Hel as [->|Hel]; [done|].
        apply Hacc. by right.
      + apply elem_of_cons in Hel as [->|Hel]; [apply Hacc; by left|].
        apply IHacc; [|done]. intros c v Hcv. apply Hacc. by right. }
  destruct HP as [Hne Hfrom].
  destruct (0 <? len cf) eqn:E; [|by split].
  assert (cf <> []) as Hcfne.
  { intros Hnil. rewrite Hnil in E. done. }
  assert ((t, frame) ∈ p) as Htp by (apply Hsub; by left).
  clear IH Hsub. split.
  - clear Hfrom. induction Hne as [|[t0 f0] out H0 Hne IHne]; simpl.
    + by repeat constructor.
    + destruct (Qeq_bool t0 t); by constructor.
  - intros t1 cf1 c v Hel Hcv.
    assert ((t1, cf1) ∈ out \/ ((t1 == t)%Q /\ cf1 = cf)) as [Hold|[Ht ->]].
    { clear -Hel. induction out as [|[t0 f0] out IHout]; simpl in Hel.
      - apply list_elem_of_singleton in Hel as [= -> ->]. by right.
      - destruct (Qeq_bool t0 t) eqn:Et.
        + apply elem_of_cons in Hel as [[= -> ->]|Hel].
          * right. split; [by apply Qeq_bool_iff|done].
          * left. by right.
        + apply elem_of_cons in Hel as [[= -> ->]|Hel]; [left; by left|].
          destruct (IHout Hel) as [?|?]; [left; by right|by right]. }
    + by apply (Hfrom t1 cf1).
    + exists t, frame. repeat split; [done|by symmetry|by apply Hcf].
Qed.

End CompressExtras.

(** ** The binary file *)

Section BinaryExtras.

Import JsonToDmx.

Variable pack_f : Q -> outcome (list byte).
Hypothesis pack_f_size : forall t bs, pack_f t = Done bs -> length bs = 4%nat.

Lemma le_bytes_length n z : length (le_bytes n z) = n.
Proof.
  revert z. induction n as [|n IH]; intros z; simpl; [done|]. by rewrite IH.
Qed.

Lemma pack_uint_done n z bs :
  pack_uint n z = Done bs <-> 0 <= z < 256 ^ Z.of_nat n /\ bs = le_bytes n z.
Proof.
  unfold pack_uint.
  destruct (Z.leb_spec 0 z), (Z.ltb_spec z (256 ^ Z.of_nat n)); simpl;
    split; try (intros [= <-]; split; [lia|done]); try done;
    try (intros [? _]; lia).
  by intros [_ ->].
Qed.

Lemma pack_HB_done channel value bs :
  and_then (pack_uint 2 channel) (fun h =>
  and_then (pack_uint 1 value) (fun b => Done (h ++ b))) = Done bs
  <-> (0 <= channel < 65536 /\ 0 <= value < 256)
      /\ bs = le_bytes 2 channel ++ le_bytes 1 value.
Proof.
  split.
  - destruct (pack_uint 2 channel) as [h| |] eqn:Eh; try done.
    destruct (pack_uint 1 value) as [b| |] eqn:Eb; try done.
    simpl. intros [= <-].
    apply pack_uint_done in Eh as [Hc ->], Eb as [Hv ->].
    split; [|done]. split; [exact Hc|exact Hv].
  - intros [[Hc Hv] ->].
    rewrite (proj2 (pack_uint_done 2 channel _) (conj Hc eq_refl)).
    by rewrite (proj2 (pack_uint_done 1 value _) (conj Hv eq_refl)).
Qed.

Lemma pack_fH_done t n bs :
  and_then (pack_f t) (fun f =>
  and_then (pack_uint 2 n) (fun h => Done (f ++ h))) = Done bs
  <-> exists f, pack_f t = Done f /\ 0 <= n < 65536 /\ bs = f ++ le_bytes 2 n.
Proof.
  split.
  - destruct (pack_f t) as [f| |] eqn:Ef; try done.
    destruct (pack_uint 2 n) as [h| |] eqn:Eh; try done.
    simpl. intros [= <-]. apply pack_uint_done in Eh as [Hn ->].
    exists f. split; [done|]. split; [exact Hn|done].
  - intros (f & -> & Hn & ->). simpl.
    by rewrite (proj2 (pack_uint_done 2 n _) (conj Hn eq_refl)).
Qed.

(** Packing into the zero bytes that follow what is written. *)
Lemma pack_into_next written bs n size :
  len bs = size -> 0 <= size <= n ->
  pack_into size (Done bs) (written ++ replicate (Z.to_nat n) x00)
    (len written)
  = Done ((written ++ bs) ++ replicate (Z.to_nat (n - size)) x00).
Proof.
  intros Hbs Hn. unfold pack_into, len in *. cbv zeta.
  assert ((Z.of_nat (length written) <? 0) = false) as E1
    by (apply Z.ltb_ge; lia).
  rewrite E1. cbv iota. rewrite E1. simpl orb.
  rewrite length_app, length_replicate.
  assert ((Z.of_nat (length written + Z.to_nat n)
           <? Z.of_nat (length written) + size) = false) as ->
    by (apply Z.ltb_ge; lia).
  simpl. rewrite Nat2Z.id, take_app_length.
  rewrite drop_app_ge by lia. rewrite drop_replicate.
  rewrite <- app_assoc. repeat f_equal. lia.
Qed.

(** A call that succeeds leaves the buffer as long as it was. *)
Lemma pack_into_done size packed buffer offset r :
  0 <= offset -> 0 <= size ->
  pack_into size packed buffer offset = Done r ->
  exists bs, packed = Done bs
             /\ offset + size <= len buffer
             /\ (len bs = size -> len r = len buffer).
Proof.
  intros Ho Hs. unfold pack_into, len. cbv zeta.
  assert ((offset <? 0) = false) as E1 by (apply Z.ltb_ge; lia).
  rewrite E1. cbv iota. rewrite E1. simpl orb.
  destruct (Z.ltb_spec (Z.of_nat (length buffer)) (offset + size)); [done|].
  destruct packed as [bs| |]; try done. simpl. intros [= <-].
  exists bs. repeat split; [done|]. intros Hbs.
  rewrite !length_app, length_take, length_drop. lia.
Qed.

Lemma pack_pairs_next (frame : Frame) written n :
  pairs_fit frame -> 3 * len frame <= n ->
  pack_pairs frame (written ++ replicate (Z.to_nat n) x00) (len written)
  = Done ((written ++ encode_pairs frame)
          ++ replicate (Z.to_nat (n - 3 * len frame)) x00,
          len written + 3 * len frame).
Proof.
  intros Hfit. revert written n.
  induction Hfit as [|[c v] frame Hcv _ IH]; intros written n Hn.
  - unfold len, encode_pairs. simpl.
    rewrite app_nil_r, Z.sub_0_r, Z.add_0_r. done.
  - assert (len ((c, v) :: frame) = len frame + 1) as Hlen
      by (unfold len; simpl length; lia).
    rewrite Hlen in *.
    assert (0 <= len frame) by (unfold len; lia).
    cbn [pack_pairs].
    rewrite (proj2 (pack_HB_done c v _) (conj Hcv eq_refl)).
    rewrite pack_into_next;
      [|unfold len; rewrite length_app, !le_bytes_length; done|lia].
    cbn [and_then].
    replace (len written + 3)
      with (len (written ++ le_bytes 2 c ++ le_bytes 1 v))
      by (unfold len; rewrite !length_app, !le_bytes_length; lia).
    rewrite IH by lia.
    replace (n - 3 - 3 * len frame) with (n - 3 * (len frame + 1)) by lia.
    assert (len (written ++ le_bytes 2 c ++ le_bytes 1 v) + 3 * len frame
            = len written + 3 * (len frame + 1)) as ->
      by (unfold len; rewrite !length_app, !le_bytes_length; lia).
    unfold encode_pairs. cbn [map concat fst snd].
    by rewrite <- !app_assoc.
Qed.

Lemma size_from a (data : Program) :
  fold_left (fun size tf => size + 6 + 3 * len tf.2) data a
  = a + fold_left (fun size tf => size + 6 + 3 * len tf.2) data 0.
Proof.
  revert a. induction data as [|[t frame] data IH]; intros a; simpl; [lia|].
  rewrite IH, (IH (0 + 6 + 3 * len frame)). lia.
Qed.

Lemma size_nonneg (data : Program) :
  0 <= fold_left (fun size tf => size + 6 + 3 * len tf.2) data 0.
Proof.
  induction data as [|[t frame] data IH]; simpl; [done|].
  rewrite size_from. unfold len in *. lia.
Qed.

Lemma encode_pairs_length (frame : Frame) :
  len (encode_pairs frame) = 3 * len frame.
Proof.
  unfold len, encode_pairs. induction frame as [|[c v] frame IH]; [done|].
  cbn [map concat fst snd].
  rewrite !length_app, !le_bytes_length, !Nat2Z.inj_add, IH.
  simpl length. lia.
Qed.

Lemma len_app {A} (l1 l2 : list A) : len (l1 ++ l2) = len l1 + len l2.
Proof. unfold len. rewrite length_app. lia. Qed.

Lemma pack_frames_next (data : Program) written n :
  Forall (fun tf => (exists f, pack_f tf.1 = Done f)
                    /\ len tf.2 < 65536 /\ pairs_fit tf.2) data ->
  fold_left (fun size tf => size + 6 + 3 * len tf.2) data 0 <= n ->
  pack_frames pack_f data (written ++ replicate (Z.to_nat n) x00)
    (len written)
  = Done ((written
           ++ encode_frames
                (fun t => match pack_f t with Done f => f | _ => [] end) data)
          ++ replicate
               (Z.to_nat
                  (n - fold_left (fun size tf => size + 6 + 3 * len tf.2)
                         data 0)) x00,
          len written
          + fold_left (fun size tf => size + 6 + 3 * len tf.2) data 0).
Proof.
  intros Hfit. revert written n.
  induction Hfit as [|[t frame] data ((f & Hf) & Hcount & Hpairs) _ IH];
    intros written n Hn.
  - unfold encode_frames. simpl.
    rewrite app_nil_r, Z.sub_0_r, Z.add_0_r. done.
  - simpl in Hf, Hcount, Hpairs. cbn [fold_left snd] in *.
    rewrite size_from in *.
    pose proof (size_nonneg data) as Hrest.
    assert (0 <= len frame) as Hlen0 by (unfold len; lia).
    cbn [pack_frames].
    rewrite (proj2 (pack_fH_done t (len frame) _)
               (ex_intro _ f (conj Hf (conj (conj Hlen0 Hcount) eq_refl)))).
    rewrite pack_into_next;
      [|unfold len; rewrite length_app, le_bytes_length, (pack_f_size t f Hf);
        done|lia].
    cbn [and_then].
    assert (len (f ++ le_bytes 2 (len frame)) = 6) as Hhead.
    { rewrite len_app. unfold len at 1 2.
      rewrite le_bytes_length, (pack_f_size t f Hf). done. }
    replace (len written + 6) with (len (written ++ f ++ le_bytes 2 (len frame)))
      by (rewrite len_app; lia).
    rewrite pack_pairs_next by (done || lia).
    cbn [and_then fst snd].
    replace (len (written ++ f ++ le_bytes 2 (len frame)) + 3 * len frame)
      with (len ((written ++ f ++ le_bytes 2 (len frame))
                 ++ encode_pairs frame))
      by (rewrite (len_app _ (encode_pairs frame)), encode_pairs_length; done).
    rewrite IH by lia.
    replace (n - 6 - 3 * len frame
             - fold_left (fun size tf => size + 6 + 3 * len tf.2) data 0)
      with (n - (0 + 6 + 3 * len frame
                 + fold_left (fun size tf => size + 6 + 3 * len tf.2) data 0))
      by lia.
    apply f_equal, f_equal2.
    + unfold encode_frames. cbn [map concat fst snd]. rewrite Hf.
      rewrite <- !app_assoc. do 5 apply (f_equal (app _)).
      f_equal. lia.
    + rewrite (len_app _ (encode_pairs frame)), encode_pairs_length.
      rewrite (len_app written). lia.
Qed.

Lemma encode_frames_length (data : Program) :
  Forall (fun tf => (exists f, pack_f tf.1 = Done f)
                    /\ len tf.2 < 65536 /\ pairs_fit tf.2) data ->
  len (encode_frames
         (fun t => match pack_f t with Done f => f | _ => [] end) data)
  = fold_left (fun size tf => size + 6 + 3 * len tf.2) data 0.
Proof.
  induction 1 as [|[t frame] data ((f & Hf) & _ & _) _ IH]; [done|].
  simpl in Hf. unfold encode_frames in *. cbn [map concat fst snd fold_left].
  rewrite size_from, !len_app, IH, encode_pairs_length, Hf.
  unfold len at 1 2. rewrite le_bytes_length, (pack_f_size t f Hf). lia.
Qed.

(** X17: when the number of frames fits 32 bits, the number of pairs of
    every frame and every channel fit 16 bits, every value fits 8 bits
    and every time can be packed as a float, [convert] writes the four
    bytes "DMX ", the number of frames, and then frame after frame the
    time, the number of pairs and the pairs, three bytes each, with
    nothing between them and nothing after them: the size that is
    computed first is the size that is filled. *)
Theorem convert_lays_out_the_file (data : Program) :
  len data < 2 ^ 32 ->
  Forall (fun tf => (exists f, pack_f tf.1 = Done f)
                    /\ len tf.2 < 65536 /\ pairs_fit tf.2) data ->
  convert pack_f data
  = Done (magic ++ le_bytes 4 (len data)
          ++ encode_frames
               (fun t => match pack_f t with Done f => f | _ => [] end) data)
  /\ len (magic ++ le_bytes 4 (len data)
          ++ encode_frames
               (fun t => match pack_f t with Done f => f | _ => [] end) data)
     = fold_left (fun size tf => size + 6 + 3 * len tf.2) data 8.
Proof.
  intros Hcount Hfit. split.
  - unfold convert. cbv zeta. rewrite size_from.
    pose proof (size_nonneg data) as Hsize.
    set (S := fold_left (fun size (tf : Q * list (Z * Z)) => size + 6 + 3 * len tf.2)
               data 0) in *.
    change (pack_into 4 (Done magic) (replicate (Z.to_nat (8 + S)) x00) 0)
      with (pack_into 4 (Done magic)
              ([] ++ replicate (Z.to_nat (8 + S)) x00) (len (@nil byte))).
    rewrite pack_into_next by (done || lia).
    cbn [and_then].
    assert (0 <= len data < 256 ^ Z.of_nat 4) as Hc
      by (unfold len in *; change (256 ^ Z.of_nat 4) with (2 ^ 32); lia).
    rewrite (proj2 (pack_uint_done 4 (len data) _) (conj Hc eq_refl)).
    change (pack_into 4 ?p ?b 4) with (pack_into 4 p b (len ([] ++ magic))).
    rewrite pack_into_next;
      [|unfold len; by rewrite le_bytes_length|lia].
    cbn [and_then].
    change (pack_frames pack_f data ?b 8)
      with (pack_frames pack_f data b
              (len (([] ++ magic) ++ le_bytes 4 (len data)))).
    rewrite pack_frames_next by (done || (fold S; lia)).
    cbn [and_then fst]. fold S.
    replace (8 + S - 4 - 4 - S) with 0 by lia.
    change (replicate (Z.to_nat 0) x00) with (@nil byte).
    rewrite app_nil_r, <- !app_assoc. done.
  - rewrite !len_app, encode_frames_length by done.
    rewrite (size_from 8). unfold len at 1 2. rewrite le_bytes_length.
    simpl length. lia.
Qed.

Lemma pack_pairs_done (frame : Frame) buffer offset r :
  0 <= offset ->
  pack_pairs frame buffer offset = Done r ->
  pairs_fit frame /\ len r.1 = len buffer /\ r.2 = offset + 3 * len frame.
Proof.
  revert buffer offset.
  induction frame as [|[c v] frame IH]; intros buffer offset Ho.
  - simpl. intros [= <-]. repeat split; [constructor|simpl; unfold len; simpl; lia].
  - cbn [pack_pairs].
    destruct (pack_into 3 _ buffer offset) as [buffer'| |] eqn:E; try done.
    cbn [and_then]. intros Hrest.
    apply pack_into_done in E as (bs & Hbs & _ & Hlen); [|done|done].
    apply pack_HB_done in Hbs as [Hcv ->].
    apply IH in Hrest as (Hfit & Hl & Hoff); [|lia].
    repeat split.
    + by constructor.
    + rewrite Hl. apply Hlen. unfold len.
      by rewrite length_app, !le_bytes_length.
    + rewrite Hoff. unfold len. simpl length. lia.
Qed.

Lemma pack_frames_done (data : Program) buffer offset r :
  0 <= offset ->
  pack_frames pack_f data buffer offset = Done r ->
  Forall (fun tf => (exists f, pack_f tf.1 = Done f)
                    /\ len tf.2 < 65536 /\ pairs_fit tf.2) data
  /\ len r.1 = len buffer.
Proof.
  revert buffer offset.
  induction data as [|[t frame] data IH]; intros buffer offset Ho.
  - simpl. intros [= <-]. by split; [constructor|].
  - cbn [pack_frames].
    destruct (pack_into 6 _ buffer offset) as [buffer'| |] eqn:E; try done.
    cbn [and_then].
    destruct (pack_pairs frame buffer' (offset + 6)) as [bo| |] eqn:E2;
      try done.
    cbn [and_then]. intros Hrest.
    apply pack_into_done in E as (bs & Hbs & _ & Hlen); [|done|done].
    apply pack_fH_done in Hbs as (f & Hf & Hn & ->).
    apply pack_pairs_done in E2 as (Hfit & Hl & Hoff); [|lia].
    apply IH in Hrest as (Hall & Hl'); [|unfold len in Hoff; lia].
    split.
    + constructor; [|done]. simpl. split; [by exists f|]. split; [lia|done].
    + rewrite Hl', Hl. apply Hlen. unfold len.
      by rewrite length_app, le_bytes_length, (pack_f_size t f Hf).
Qed.

(** X18: whenever [convert] has a file to write, the file is as long as
    the header and six bytes for each frame and three for each pair, the
    number of frames fits 32 bits, and every frame has a time that can
    be packed, fewer than 65536 pairs, channels from 0 to 65535 and
    values from 0 to 255: anything else ends in [struct.error] or
    [OverflowError] and no file. *)
Theorem convert_done (data : Program) bs :
  convert pack_f data = Done bs ->
  len bs = fold_left (fun size tf => size + 6 + 3 * len tf.2) data 8
  /\ len data < 2 ^ 32
  /\ Forall (fun tf => (exists f, pack_f tf.1 = Done f)
                       /\ len tf.2 < 65536 /\ pairs_fit tf.2) data.
Proof.
  unfold convert. cbv zeta.
  pose proof (size_nonneg data) as Hsize. rewrite size_from.
  set (S := fold_left (fun size (tf : Q * list (Z * Z)) => size + 6 + 3 * len tf.2)
             data 0) in *.
  destruct (pack_into 4 (Done magic) _ 0) as [b1| |] eqn:E1; try done.
  cbn [and_then].
  destruct (pack_into 4 (pack_uint 4 (len data)) b1 4) as [b2| |] eqn:E2;
    try done.
  cbn [and_then].
  destruct (pack_frames pack_f data b2 8) as [bo| |] eqn:E3; try done.
  cbn [and_then]. intros [= <-].
  apply pack_into_done in E1 as (m & Hm & _ & Hl1); [|done|done].
  apply pack_into_done in E2 as (c & Hc & _ & Hl2); [|done|done].
  apply pack_uint_done in Hc as [Hc ->].
  apply pack_frames_done in E3 as [Hall Hl3]; [|done].
  repeat split; [|change (2 ^ 32) with (256 ^ Z.of_nat 4); lia|done].
  rewrite Hl3, Hl2 by (unfold len; by rewrite le_bytes_length).
  injection Hm as <-. rewrite Hl1 by done.
  unfold len. rewrite length_replicate. lia.
Qed.

End BinaryExtras.

Lemma pack_zero_time_size (t : Q) (bs : list byte) :
  (if Qeq_bool t 0 then Done [x00; x00; x00; x00] else FloatOverflow)
  = Done bs ->
  length bs = 4%nat.
Proof.
  destruct (Qeq_bool t 0); [intros [= <-]; reflexivity | discriminate].
Qed.

Lemma convert_lays_out_the_file_witness :
  JsonToDmx.convert
    (fun t => if Qeq_bool t 0 then Done [x00; x00; x00; x00] else FloatOverflow)
    [(0%Q, [(1, 255); (513, 7)])]
  = Done [x44; x4d; x58; x20; x01; x00; x00; x00;
          x00; x00; x00; x00; x02; x00;
          x01; x00; xff; x01; x02; x07].
Proof.
  refine (eq_trans
            (proj1 (convert_lays_out_the_file _ pack_zero_time_size
                      [(0%Q, [(1, 255); (513, 7)])] _ _)) _).
  - reflexivity.
  - constructor; [|constructor].
    split; [by eexists|]. split; [reflexivity|].
    unfold pairs_fit. constructor; [simpl; lia|].
    constructor; [simpl; lia|constructor].
  - reflexivity.
Defined.

Lemma convert_done_witness :
  len [(0%Q, [(1, 255); (513, 7)])] < 2 ^ 32
  /\ Forall (fun tf : Q * list (Z * Z) =>
               (exists f,
                  (if Qeq_bool tf.1 0 then Done [x00; x00; x00; x00]
                   else FloatOverflow) = Done f)
               /\ len tf.2 < 65536 /\ pairs_fit tf.2)
       [(0%Q, [(1, 255); (513, 7)])].
Proof.
  refine (proj2 (convert_done _ pack_zero_time_size
                   [(0%Q, [(1, 255); (513, 7)])]
                   [x44; x4d; x58; x20; x01; x00; x00; x00;
                    x00; x00; x00; x00; x02; x00;
                    x01; x00; xff; x01; x02; x07] _)).
  reflexivity.
Defined.

(** ** The script of the interface *)

Section MainExtras.

Import FtdiDmxInterface FtdiDmxInterfaceMain.

Lemma loop_state turns i s x y :
  universe_ok s = true -> _highest_updated_channel s = 0 ->
  take 11 (_dmx_channels s) = [0; 255; x; 0; 0; 0; 0; 0; 0; 255; y] ->
  exists added s',
    loop turns i s = (Return tt, s')
    /\ trace s' = trace s ++ added
    /\ map (map byte_to_Z) (writes added)
       = map (fun k => main_packet (i + Z.of_nat k)) (seq 0 turns).
Proof.
  revert i s x y. induction turns as [|turns IH]; intros i s x y Hok Hh Htake.
  - exists [], s. by rewrite app_nil_r.
  - pose proof Hok as (Hlen & Hall & H0 & _)%universe_ok_spec.
    pose proof (Z.mod_pos_bound i 256 ltac:(lia)) as Hmod.
    cbn [loop]. unfold mbind at 1, M_bind at 1, __setitem__.
    rewrite set_channel_in_range by (done || lia).
    set (s1 := set_highest_updated_channel _ _).
    unfold mbind at 1, M_bind at 1.
    rewrite set_channel_in_range by (done || (simpl; by rewrite length_insert) || lia).
    set (s2 := set_highest_updated_channel _ _).
    assert (universe_ok s2 = true) as Hok2.
    { apply universe_ok_spec. subst s2 s1. simpl. rewrite Hh.
      repeat split; try lia.
      - by rewrite !length_insert.
      - apply Forall_insert; [apply Forall_insert; [done|lia]|lia].
      - by rewrite !list_lookup_insert_ne by lia. }
    assert (take 11 (_dmx_channels s2) = main_packet i) as Htake2.
    { subst s2 s1. simpl.
      rewrite !take_insert_lt by lia. rewrite Htake. reflexivity. }
    destruct (render_ok s2 Hok2)
      as (pkt & s3 & Hr & Hmap & Hch3 & Hh3 & _ & _ & _ & Htr3 & _).
    assert (_highest_updated_channel s2 = 10) as Hh2
      by (subst s2 s1; simpl; rewrite Hh; reflexivity).
    rewrite Hh2 in Hmap. change (Z.to_nat (10 + 1)) with 11%nat in Hmap.
    rewrite Htake2 in Hmap.
    unfold mbind at 1, M_bind at 1. rewrite Hr.
    unfold mbind at 1, M_bind at 1.
    rewrite time_sleep_state by lra.
    set (s4 := set_clock _ _).
    destruct (IH (i + 1) s4 (i mod 256) (255 - i mod 256))
      as (added & s' & Hloop & Htr & Hw).
    { destruct (render_keeps_ok s2 Hok2) as (? & Hok3 & _).
      rewrite Hr in Hok3. exact Hok3. }
    { exact Hh3. }
    { subst s4. simpl. rewrite Hch3. exact Htake2. }
    exists (packet_effects pkt ++ [TimeSleep (1 # 100)%Q] ++ added), s'.
    rewrite Hloop. repeat split.
    + rewrite Htr. subst s4. simpl. rewrite Htr3.
      subst s2 s1. simpl. by rewrite <- !app_assoc.
    + rewrite !writes_app, writes_packet. simpl writes at 1.
      cbn [app map seq]. rewrite Hmap, Hw.
      rewrite Z.add_0_r. f_equal.
      rewrite <- seq_shift, map_map. apply map_ext. intros k.
      f_equal. lia.
Qed.

(** X19: however many turns the loop of the script is given, it never
    raises: the constructor sends the 513 zero bytes, the first [render]
    sends channels 1 to 9, and turn [i] sends 11 bytes with
    [i % 256] on channel 2 and [255 - i % 256] on channel 10. *)
Theorem main_never_raises turns s :
  exists s',
    main turns s = (Return tt, s')
    /\ map (map byte_to_Z) (writes (effects_of (main turns) s))
       = replicate 513 0
         :: [0; 255; 0; 0; 0; 0; 0; 0; 0; 255]
         :: map (fun k => main_packet (Z.of_nat k)) (seq 0 turns).
Proof.
  destruct (init_state s) as (s0 & Hinit & Hok0 & Hch0 & Hh0 & Htr0).
  pose proof Hok0 as (Hlen0 & _)%universe_ok_spec.
  unfold main, mbind at 1, M_bind at 1. rewrite Hinit.
  unfold mbind at 1, M_bind at 1, __setitem__.
  rewrite set_channel_in_range by (done || lia).
  set (s1 := set_highest_updated_channel _ _).
  unfold mbind at 1, M_bind at 1.
  rewrite set_channel_in_range
    by (done || (simpl; by rewrite length_insert) || lia).
  set (s2 := set_highest_updated_channel _ _).
  assert (_dmx_channels s2 = <[9%nat:=255]> (<[1%nat:=255]> (replicate 513 0)))
    as Hch2 by (subst s2 s1; simpl; by rewrite Hch0).
  assert (_highest_updated_channel s2 = 9) as Hh2
    by (subst s2 s1; simpl; rewrite Hh0; reflexivity).
  assert (universe_ok s2 = true) as Hok2.
  { apply universe_ok_spec. rewrite Hch2, Hh2.
    split; [by rewrite !length_insert, length_replicate|].
    split; [|split; [reflexivity|lia]].
    apply Forall_insert; [apply Forall_insert|]; try lia.
    apply Forall_replicate. lia. }
  destruct (render_ok s2 Hok2)
    as (pkt & s3 & Hr & Hmap & Hch3 & Hh3 & _ & _ & _ & Htr3 & _).
  rewrite Hh2, Hch2 in Hmap.
  change (take (Z.to_nat (9 + 1)) _)
    with [0; 255; 0; 0; 0; 0; 0; 0; 0; 255] in Hmap.
  unfold mbind at 1, M_bind at 1. rewrite Hr.
  destruct (loop_state turns 0 s3 0 0) as (added & s' & Hloop & Htr & Hw).
  { destruct (render_keeps_ok s2 Hok2) as (? & Hok3 & _).
    rewrite Hr in Hok3. exact Hok3. }
  { exact Hh3. }
  { rewrite Hch3, Hch2. reflexivity. }
  exists s'. split; [exact Hloop|].
  rewrite (effects_of_app _ s
             (([DeviceOpen; FtdiSetBaudrate 250000; FtdiSetLineProperty 8 2 0]
               ++ packet_effects (replicate 513 x00))
              ++ packet_effects pkt ++ added)).
  - rewrite !writes_app, !writes_packet.
    change (writes [DeviceOpen; FtdiSetBaudrate 250000;
                    FtdiSetLineProperty 8 2 0]) with (@nil (list byte)).
    cbn [app map]. rewrite Hmap, Hw.
    change (map byte_to_Z (replicate 513 x00)) with (replicate 513 0).
    reflexivity.
  - unfold main, mbind at 1, M_bind at 1. rewrite Hinit.
    unfold mbind at 1, M_bind at 1, __setitem__.
    rewrite set_channel_in_range by (done || lia). fold s1.
    unfold mbind at 1, M_bind at 1.
    rewrite set_channel_in_range
      by (done || (simpl; by rewrite length_insert) || lia). fold s2.
    unfold mbind at 1, M_bind at 1. rewrite Hr, Hloop. simpl.
    rewrite Htr, Htr3. subst s2 s1. simpl. rewrite Htr0.
    by rewrite <- !app_assoc.
Qed.

End MainExtras.

(** ** The destructor of the controller *)

Section DestructorExtras.

(** X20: the destructor of the controller asks the interface for [stop],
    which it does not have: in every state it raises [AttributeError],
    sends no blackout, does not close the device and leaves the universe
    as it is. *)
Theorem controller_del_sends_nothing s :
  DmxController.__del__ s
  = (Raise (AttributeError
              "'FtdiDmxInterface' object has no attribute 'stop'"), s)
  /\ effects_of DmxController.__del__ s = [].
Proof.
  split; [reflexivity|].
  unfold effects_of.
  change (DmxController.__del__ s).2 with s. apply drop_all.
Qed.

End DestructorExtras.
